(** * Collections API views (api/collections/views.py)

    A shallow embedding of the collection endpoints of the OSF API and
    of the relationship-set reconciliation they drive.  View methods
    that raise, read the database or mutate the view become
    computations in a small exception-and-state monad; the permission
    subsystem, the object loader and the model methods that live in
    other modules of the code base are the fields of one interface. *)

From stdpp Require Import gmap strings list pretty.

Open Scope string_scope.
Open Scope list_scope.

(** ** Data model *)

(** [request.user]: Django's [AnonymousUser] or a registered user. *)
Inductive User :=
| AnonymousUser
| OSFUser (guid : string).

Definition is_anonymous (u : User) : bool :=
  match u with
  | AnonymousUser => true
  | OSFUser _ => false
  end.

(** website.util.permissions *)
Inductive Permission := READ | WRITE | ADMIN.

(** The attributes of an [AbstractNode] row that the views read. *)
Record Node := {
  _id : string;
  type : string;
  is_collection : bool;
  is_deleted : bool;
  is_public : bool;
  creator : User;
  date_modified : nat
}.

(** A [NodeRelation] row: the edge [parent -> child]. *)
Record NodeRelation := {
  nr_id : nat;
  parent : string;
  child : string
}.

Record Store := {
  nodes : gmap string Node;
  node_relations : list NodeRelation
}.

Record Auth := {
  auth_user : User;
  private_key : option string
}.

(** One resource identifier object of a request body. *)
Record Resource := {
  res_type : string;
  res_id : string
}.

Record Request := {
  user : User;
  method : string;
  content_type : string;
  data : list Resource
}.

(** The exceptions the views raise or translate. *)
Inductive Exn :=
| NotFound
| Gone
| PermissionDenied
| NotAuthenticated
| ValidationError (message : string)
| ValueError (message : string)
| NodeStateError (message : string)
| KeyError (key : string).

(** What [check_object_permissions] can be handed. *)
Inductive Obj :=
| ONode (n : Node)
| ONodeLink (r : NodeRelation).

Inductive Event :=
| EvGetObject (model : string) (pk : string)
| EvCheckObjectPermissions (o : Obj).

(** The state a view method runs in: the database, the view's
    [self.kwargs], and the trace of loader and permission calls. *)
Record World := {
  db : Store;
  kwargs : gmap string string;
  log : list Event
}.

(** ** The monad of view methods *)

Definition M (A : Type) : Type := World -> (Exn + A) * World.

Definition ret {A} (a : A) : M A := fun w => (inr a, w).

Definition bind {A B} (c : M A) (k : A -> M B) : M B :=
  fun w =>
    match c w with
    | (inl e, w') => (inl e, w')
    | (inr a, w') => k a w'
    end.

Definition raise {A} (e : Exn) : M A := fun w => (inl e, w).

(** [try: c except: h] with a handler that may decline ([None] re-raises). *)
Definition try_except {A} (c : M A) (h : Exn -> option (M A)) : M A :=
  fun w =>
    match c w with
    | (inl e, w') =>
        match h e with
        | Some k => k w'
        | None => (inl e, w')
        end
    | r => r
    end.

Definition get_world : M World := fun w => (inr w, w).

Definition emit (ev : Event) : M unit :=
  fun w => (inr tt, {| db := db w; kwargs := kwargs w; log := log w ++ [ev] |}).

Definition set_kwarg (k v : string) : M unit :=
  fun w => (inr tt, {| db := db w; kwargs := <[k := v]> (kwargs w); log := log w |}).

Definition set_db (s : Store) : M unit :=
  fun w => (inr tt, {| db := s; kwargs := kwargs w; log := log w |}).

#[global] Instance M_ret : MRet M := @ret.
#[global] Instance M_bind : MBind M := fun A B k c => bind c k.

(** ** Queries

    modularodm's [Q(field, op, value)] objects and their conjunction,
    and the keyword lookups of Django query sets, read against the
    attributes of a row. *)
Inductive Value :=
| VBool (b : bool)
| VStr (s : string)
| VUser (u : User)
| VList (l : list string).

Inductive Query :=
| Q (field op : string) (v : Value)
| QAnd (a b : Query).

Infix "&" := QAnd (at level 40, left associativity).

#[global] Instance User_eq_dec : EqDecision User.
Proof. solve_decision. Defined.

#[global] Instance Value_eq_dec : EqDecision Value.
Proof. solve_decision. Defined.

#[global] Instance NodeRelation_eq_dec : EqDecision NodeRelation.
Proof. solve_decision. Defined.

Definition attr (n : Node) (field : string) : option Value :=
  if decide (field = "_id") then Some (VStr (_id n))
  else if decide (field = "type") then Some (VStr (type n))
  else if decide (field = "is_deleted") then Some (VBool (is_deleted n))
  else if decide (field = "is_public") then Some (VBool (is_public n))
  else if decide (field = "creator") then Some (VUser (creator n))
  else None.

Definition compare (op : string) (x v : Value) : bool :=
  if decide (op = "eq") then bool_decide (x = v)
  else if decide (op = "ne") then negb (bool_decide (x = v))
  else if decide (op = "in") then
    match x, v with
    | VStr s, VList l => bool_decide (s ∈ l)
    | _, _ => false
    end
  else false.

Fixpoint matches (q : Query) (n : Node) : bool :=
  match q with
  | Q field op v =>
      match attr n field with
      | Some x => compare op x v
      | None => false
      end
  | a & b => matches a n && matches b n
  end.

(** [Collection.find(query)]: the rows of the collection model that
    satisfy the query. *)
Definition Collection_find (s : Store) (q : Query) : list Node :=
  filter (λ n, matches q n)
    (filter (λ n, is_collection n) (map_to_list (nodes s)).*2).

(** [qs.filter(field=v)] and [qs.exclude(field=v)] on a query set of nodes. *)
Definition qs_filter (field : string) (v : Value) (qs : list Node) : list Node :=
  filter (λ n, bool_decide (attr n field = Some v)) qs.

Definition qs_exclude (field : string) (v : Value) (qs : list Node) : list Node :=
  filter (λ n, negb (bool_decide (attr n field = Some v))) qs.

(** [node.node_relations]: the edges leaving [node]. *)
Definition node_relations_of (s : Store) (node : Node) : list NodeRelation :=
  filter (λ r, parent r = _id node) (node_relations s).

(** The attribute [child__field] of an edge, through the join with
    the child's row ([select_related('child')]). *)
Definition child_attr (s : Store) (r : NodeRelation) (field : string) : option Value :=
  c ← nodes s !! child r; attr c field.

Definition rel_filter_child (s : Store) (field : string) (v : Value)
    (qs : list NodeRelation) : list NodeRelation :=
  filter (λ r, bool_decide (child_attr s r field = Some v)) qs.

Definition rel_exclude_child (s : Store) (field : string) (v : Value)
    (qs : list NodeRelation) : list NodeRelation :=
  filter (λ r, negb (bool_decide (child_attr s r field = Some v))) qs.

(** ** External collaborators

    The functions below are imported by views.py from modules that are
    not part of this development (api.base.utils, the DRF view base
    class, osf.models).  They are taken as an interface. *)
Class Collaborators := {
  (** api.base.utils.get_object_or_error, at the [Collection] model *)
  load_collection : Store -> string -> Exn + Node;
  (** api.base.utils.get_object_or_error, at the [NodeRelation] model *)
  load_node_link : Store -> string -> Exn + NodeRelation;
  (** The verdict of the view's permission classes on an object. *)
  object_permissions : Request -> World -> Obj -> option Exn;
  get_user_auth : Request -> Auth;
  is_bulk_request : Request -> bool;
  has_permission : Node -> User -> Permission -> bool;
  can_edit : Node -> Auth -> bool;
  can_view : Node -> Auth -> bool;
  (** Node.remove_node: the instance after removal and the new store *)
  remove_node : Node -> Auth -> Store -> Exn + Node * Store;
  (** Node.save *)
  save : Node -> Store -> Store;
  (** ODMFilterMixin.query_params_to_odm_query *)
  query_params_to_odm_query : Request -> option Query;
  (** BaseLinkedList.get_queryset *)
  base_linked_list : Request -> M (list Node)
}.

Section Views.
Context `{Collaborators}.

Definition get_object_or_error_collection (pk : string) : M Node :=
  _ ← emit (EvGetObject "collection" pk);
  w ← get_world;
  match load_collection (db w) pk with
  | inl e => raise e
  | inr n => mret n
  end.

Definition get_object_or_error_node_link (pk : string) : M NodeRelation :=
  _ ← emit (EvGetObject "node link" pk);
  w ← get_world;
  match load_node_link (db w) pk with
  | inl e => raise e
  | inr r => mret r
  end.

(** APIView.check_object_permissions: raises what the permission
    classes decide, and is recorded in the trace. *)
Definition check_object_permissions (request : Request) (o : Obj) : M unit :=
  _ ← emit (EvCheckObjectPermissions o);
  w ← get_world;
  match object_permissions request w o with
  | Some e => raise e
  | None => mret tt
  end.

(** Modelled from the spec: Node.rm_pointer (osf.models) is not under
    src/.  A NodeLink is "destroyed when removed from the set"; a
    link "that does not belong to the collection (wrong parent)" is a
    "link/parent mismatch", which the model method signals with the
    [ValueError] that the views catch. *)
Definition rm_pointer (node : Node) (pointer : NodeRelation) (auth : Auth) : M unit :=
  w ← get_world;
  if bool_decide (pointer ∈ node_relations_of (db w) node)
  then set_db {| nodes := nodes (db w);
                 node_relations := filter (λ r, r ≠ pointer) (node_relations (db w)) |}
  else raise (ValueError "Node link does not belong to the requested node.").

(** [node.save()] *)
Definition save_node (node : Node) : M unit :=
  w ← get_world;
  set_db (save node (db w)).

End Views.

(** ** CollectionMixin *)
Module CollectionMixin.
Section Methods.
Context `{Collaborators}.

Definition node_lookup_url_kwarg : string := "collection_id".

(** [self.kwargs[key]] *)
Definition kwarg (key : string) : M string :=
  w ← get_world;
  match kwargs w !! key with
  | Some v => mret v
  | None => raise (KeyError key)
  end.

Definition get_node (request : Request) (check_permissions : bool) : M Node :=
  pk ← kwarg node_lookup_url_kwarg;
  node ← get_object_or_error_collection pk;
  if negb (is_collection node) then raise NotFound
  else
    _ ← (if check_permissions
         then check_object_permissions request (ONode node)
         else mret tt);
    mret node.

End Methods.
End CollectionMixin.

(** ** CollectionList *)
Module CollectionList.
Section Methods.
Context `{Collaborators}.

Definition get_default_odm_query (request : Request) : Query :=
  let base_query := Q "is_deleted" "ne" (VBool true) in
  let user := user request in
  let permission_query :=
    if negb (is_anonymous user) then Q "creator" "eq" (VUser user)
    else Q "is_public" "eq" (VBool true) in
  base_query & permission_query.

(** Modelled from the spec: ODMFilterMixin.get_query_from_request is
    not under src/.  The list is "filterable by title substring": the
    filters of the request narrow the default query. *)
Definition get_query_from_request (request : Request) : Query :=
  match query_params_to_odm_query request with
  | Some param_query => param_query & get_default_odm_query request
  | None => get_default_odm_query request
  end.

(** [for collection in collections: if not collection.can_edit(auth): raise] *)
Fixpoint require_can_edit (auth : Auth) (collections : list Node) : M unit :=
  match collections with
  | [] => mret tt
  | collection :: rest =>
      if negb (can_edit collection auth) then raise PermissionDenied
      else require_can_edit auth rest
  end.

Definition get_queryset (request : Request) : M (list Node) :=
  w ← get_world;
  if is_bulk_request request then
    let query := Q "_id" "in" (VList (res_id <$> data request)) in
    let auth := get_user_auth request in
    let collections := Collection_find (db w) query in
    _ ← require_can_edit auth collections;
    mret collections
  else
    let query := get_query_from_request request in
    mret (Collection_find (db w) query).

Fixpoint allow_bulk_destroy_resources (user : User) (resource_list : list Node) : bool :=
  match resource_list with
  | [] => true
  | node :: rest =>
      if negb (has_permission node user ADMIN) then false
      else allow_bulk_destroy_resources user rest
  end.

Definition perform_destroy (request : Request) (instance : Node) : M unit :=
  let auth := get_user_auth request in
  instance' ←
    try_except
      (w ← get_world;
       match remove_node instance auth (db w) with
       | inl e => raise e
       | inr (i, s) => _ ← set_db s; mret i
       end)
      (λ e, match e with
            | NodeStateError message => Some (raise (ValidationError message))
            | _ => None
            end);
  save_node instance'.

(** Modelled from the spec: BulkDestroyJSONAPIView.destroy is not
    under src/.  "Bulk delete ... 204, requires admin permission per
    item"; "Forbidden: principal ... lacks admin permission for bulk
    delete".  The hook [allow_bulk_destroy_resources] is consulted
    before any instance is destroyed. *)
Fixpoint perform_bulk_destroy (request : Request) (resource_list : list Node) : M unit :=
  match resource_list with
  | [] => mret tt
  | instance :: rest =>
      _ ← perform_destroy request instance;
      perform_bulk_destroy request rest
  end.

Definition bulk_destroy (request : Request) (resource_list : list Node) : M nat :=
  if negb (allow_bulk_destroy_resources (user request) resource_list)
  then raise PermissionDenied
  else
    _ ← perform_bulk_destroy request resource_list;
    mret 204.

End Methods.
End CollectionList.

(** ** CollectionDetail *)
Module CollectionDetail.
Section Methods.
Context `{Collaborators}.

Definition get_object (request : Request) : M Node :=
  CollectionMixin.get_node request true.

Definition perform_destroy (request : Request) (instance : Node) : M unit :=
  let auth := get_user_auth request in
  node ← get_object request;
  node' ←
    try_except
      (w ← get_world;
       match remove_node node auth (db w) with
       | inl e => raise e
       | inr (n, s) => _ ← set_db s; mret n
       end)
      (λ e, match e with
            | NodeStateError message => Some (raise (ValidationError message))
            | _ => None
            end);
  save_node node'.

End Methods.
End CollectionDetail.

(** ** LinkedNodesList *)
Module LinkedNodesList.
Section Methods.
Context `{Collaborators}.

Definition get_queryset (request : Request) : M (list Node) :=
  qs ← base_linked_list request;
  mret (qs_exclude "type" (VStr "osf.registration") qs).

End Methods.
End LinkedNodesList.

(** ** LinkedRegistrationsList *)
Module LinkedRegistrationsList.
Section Methods.
Context `{Collaborators}.

Definition get_queryset (request : Request) : M (list Node) :=
  qs ← base_linked_list request;
  mret (qs_filter "type" (VStr "osf.registration") qs).

End Methods.
End LinkedRegistrationsList.

(** [except ValueError as err: raise ValidationError(err.message)] *)
Definition pointer_not_in_node (e : Exn) : option (M unit) :=
  match e with
  | ValueError message => Some (raise (ValidationError message))
  | _ => None
  end.

(** ** NodeLinksList *)
Module NodeLinksList.
Section Methods.
Context `{Collaborators}.

Definition get_queryset (request : Request) : M (list NodeRelation) :=
  node ← CollectionMixin.get_node request true;
  w ← get_world;
  mret (rel_exclude_child (db w) "type" (VStr "osf.collection")
          (rel_filter_child (db w) "is_deleted" (VBool false)
             (node_relations_of (db w) node))).

Definition perform_destroy (request : Request) (instance : NodeRelation) : M unit :=
  let auth := get_user_auth request in
  node ← CollectionMixin.get_node request true;
  _ ← try_except (rm_pointer node instance auth) pointer_not_in_node;
  save_node node.

End Methods.
End NodeLinksList.

(** ** NodeLinksDetail *)
Module NodeLinksDetail.
Section Methods.
Context `{Collaborators}.

Definition get_object (request : Request) : M NodeRelation :=
  let node_link_lookup_url_kwarg := "node_link_id" in
  pk ← CollectionMixin.kwarg node_link_lookup_url_kwarg;
  node_link ← get_object_or_error_node_link pk;
  collection_id ← CollectionMixin.kwarg "collection_id";
  _ ← set_kwarg "node_id" collection_id;
  _ ← check_object_permissions request (ONodeLink node_link);
  mret node_link.

Definition perform_destroy (request : Request) (instance : NodeRelation) : M unit :=
  let auth := get_user_auth request in
  node ← CollectionMixin.get_node request true;
  pointer ← get_object request;
  _ ← try_except (rm_pointer node pointer auth) pointer_not_in_node;
  save_node node.

End Methods.
End NodeLinksDetail.

(** ** The set reconciler

    [CollectionLinkedNodesRelationship] and
    [CollectionLinkedRegistrationsRelationship] have no method of
    their own in views.py: their behaviour is inherited from
    api.base.views and its serializers, which are not under src/.
    The algorithm below follows section 4.1 of the specification. *)
Module Reconciler.

Inductive Mode := create_only | replace | remove.

Inductive Subtype := plain_node | registration.

#[global] Instance Subtype_eq_dec : EqDecision Subtype.
Proof. solve_decision. Defined.

(** The error taxonomy of the specification names the 403 outcome
    [Forbidden]. *)
Abbreviation Forbidden := PermissionDenied.

Section Algorithm.
Context `{Collaborators}.

(** Modelled from the spec: a target is "a project/component or a
    registration, two disjoint subtypes distinguished by a type tag",
    and "a Collection is never itself linkable as a target". *)
Definition subtype_of (n : Node) : option Subtype :=
  if decide (type n = "osf.registration") then Some registration
  else if decide (type n = "osf.collection") then None
  else Some plain_node.

(** Modelled from the spec: an identifier resolves when it names "a
    live entity of the expected subtype". *)
Definition resolve (s : Store) (t : Subtype) (id : string) : option Node :=
  match nodes s !! id with
  | Some n =>
      if negb (is_deleted n) && bool_decide (subtype_of n = Some t)
      then Some n else None
  | None => None
  end.

(** Modelled from the spec, step 1: "the set of target identifiers
    presently linked from collection, filtered to exclude targets that
    are soft-deleted or whose live type does not match the subtype
    scoped to this endpoint". *)
Definition current_ids (s : Store) (collection : Node) (t : Subtype) : list string :=
  filter (λ id, is_Some (resolve s t id)) (child <$> node_relations_of s collection).

(** Modelled from the spec: "duplicates in this input are idempotently
    collapsed (set semantics)"; the first occurrence of an identifier
    keeps its place in the order of the request. *)
Fixpoint collapse (ids : list string) : list string :=
  match ids with
  | [] => []
  | id :: rest => id :: filter (λ x, x ≠ id) (collapse rest)
  end.

(** Modelled from the spec, step 2: the pair [(to_add, to_remove)]. *)
Definition diff (mode : Mode) (requested_ids current : list string)
    : list string * list string :=
  match mode with
  | create_only =>
      (collapse (filter (λ x, x ∉ current) requested_ids), [])
  | replace =>
      (collapse (filter (λ x, x ∉ current) requested_ids),
       filter (λ x, x ∉ requested_ids) current)
  | remove =>
      ([], collapse (filter (λ x, x ∈ current) requested_ids))
  end.

(** Modelled from the spec, step 3, for one identifier: "fail ...
    with NotFound if the identifier does not resolve to a live entity
    of the expected subtype.  Fail with Forbidden if the principal
    lacks read access to that target.  Order of validation:
    existence/type check before permission check". *)
Definition violation (s : Store) (t : Subtype) (principal : Auth) (id : string)
    : option Exn :=
  match resolve s t id with
  | None => Some NotFound
  | Some target =>
      if negb (can_view target principal) then Some Forbidden else None
  end.

(** Modelled from the spec, step 3: "evaluated per item in
    requested_ids order; the first violation found aborts". *)
Fixpoint validate (s : Store) (t : Subtype) (principal : Auth) (to_add : list string)
    : Exn + unit :=
  match to_add with
  | [] => inr tt
  | id :: rest =>
      match violation s t principal id with
      | Some e => inl e
      | None => validate s t principal rest
      end
  end.

Definition links (collection target : string) (r : NodeRelation) : Prop :=
  parent r = collection ∧ child r = target.

#[global] Instance links_dec collection target r : Decision (links collection target r).
Proof. unfold links. apply _. Defined.

Definition fresh_id (s : Store) : nat :=
  S (foldr max 0 (nr_id <$> node_relations s)).

(** Modelled from the spec, step 4: "create one NodeLink per added
    identifier ... no duplicate created if one already exists ...
    enforced by the store's uniqueness constraint". *)
Definition create_link (collection : string) (s : Store) (target : string) : Store :=
  if decide (Exists (links collection target) (node_relations s)) then s
  else {| nodes := nodes s;
          node_relations :=
            node_relations s ++
            [{| nr_id := fresh_id s; parent := collection; child := target |}] |}.

(** Modelled from the spec, step 5: "destroy the corresponding
    NodeLink.  Removal is idempotent: an identifier already absent is
    a no-op, never an error". *)
Definition destroy_link (collection : string) (s : Store) (target : string) : Store :=
  {| nodes := nodes s;
     node_relations := filter (λ r, ¬ links collection target r) (node_relations s) |}.

Definition set_date_modified (now : nat) (n : Node) : Node :=
  {| _id := _id n; type := type n; is_collection := is_collection n;
     is_deleted := is_deleted n; is_public := is_public n;
     creator := creator n; date_modified := now |}.

(** Modelled from the spec, step 6: "persist a single logical update
    (in particular, updating the collection's modification
    timestamp)". *)
Definition touch (now : nat) (collection : string) (s : Store) : Store :=
  {| nodes := alter (set_date_modified now) collection (nodes s);
     node_relations := node_relations s |}.

(** Modelled from the spec: the endpoint table gives "201/200/204"
    for POST, PUT/PATCH and DELETE. *)
Definition status (mode : Mode) : nat :=
  match mode with
  | create_only => 201
  | replace => 200
  | remove => 204
  end.

Definition lift {A} (r : Exn + A) : M A :=
  match r with
  | inl e => raise e
  | inr a => mret a
  end.

(** Modelled from the spec, section 4.1: the precondition ("the
    requesting principal must hold edit permission on collection ...
    checked once up front"), then steps 1 to 7. *)
Definition reconcile (collection : Node) (t : Subtype) (requested_ids : list string)
    (mode : Mode) (principal : Auth) (now : nat) : M (nat * list string) :=
  if negb (can_edit collection principal) then raise Forbidden
  else
    w ← get_world;
    let current := current_ids (db w) collection t in
    let '(to_add, to_remove) := diff mode requested_ids current in
    _ ← lift (validate (db w) t principal to_add);
    let s1 := foldl (create_link (_id collection)) (db w) to_add in
    let s2 := foldl (destroy_link (_id collection)) s1 to_remove in
    let s3 := touch now (_id collection) s2 in
    _ ← set_db s3;
    mret (status mode, current_ids s3 collection t).

(** The number of edges from [collection] to [target] in the store. *)
Definition link_count (s : Store) (collection target : string) : nat :=
  length (filter (links collection target) (node_relations s)).

End Algorithm.
End Reconciler.

(** ** A concrete deployment

    One user's organizer with two collections, used to run the views
    on actual requests. *)
Module Fixture.

Definition owner : User := OSFUser "usr01".
Definition visitor : User := OSFUser "usr02".

Definition row (id ty : string) (coll del pub : bool) (by_ : User) : Node :=
  {| _id := id; type := ty; is_collection := coll; is_deleted := del;
     is_public := pub; creator := by_; date_modified := 0 |}.

Definition coll1 : Node := row "coll1" "osf.collection" true false false owner.
Definition coll2 : Node := row "coll2" "osf.collection" true false true owner.
Definition gone3 : Node := row "coll3" "osf.collection" true true true owner.
Definition nodeA : Node := row "nodeA" "osf.node" false false true owner.
Definition nodeB : Node := row "nodeB" "osf.node" false false true visitor.
Definition nodeD : Node := row "nodeD" "osf.node" false true true owner.
Definition nodeP : Node := row "nodeP" "osf.node" false false false visitor.
Definition regR : Node := row "regR" "osf.registration" false false true owner.

Definition link (i : nat) (p c : string) : NodeRelation :=
  {| nr_id := i; parent := p; child := c |}.

Definition store : Store :=
  {| nodes := list_to_map
       ((λ n, (_id n, n)) <$> [coll1; coll2; gone3; nodeA; nodeB; nodeD; nodeP; regR]);
     node_relations :=
       [link 1 "coll1" "nodeA"; link 2 "coll1" "regR"; link 3 "coll1" "nodeD";
        link 4 "coll1" "coll2"; link 5 "coll2" "nodeB"] |}.

(** A store whose only organizer link is [coll1 -> nodeA]. *)
Definition store_A : Store :=
  {| nodes := nodes store; node_relations := [link 1 "coll1" "nodeA"] |}.

Definition world (s : Store) (kw : list (string * string)) : World :=
  {| db := s; kwargs := list_to_map kw; log := [] |}.

Definition request (u : User) (m ct : string) (ids : list string) : Request :=
  {| user := u; method := m; content_type := ct;
     data := (λ i, {| res_type := "collections"; res_id := i |}) <$> ids |}.

Definition bulk : string := "application/vnd.api+json; ext=bulk".
Definition plain : string := "application/vnd.api+json".

Definition auth_of (u : User) : Auth := {| auth_user := u; private_key := None |}.

#[local] Instance osf : Collaborators := {|
  load_collection s pk :=
    match nodes s !! pk with
    | Some n => if is_deleted n then inl Gone else inr n
    | None => inl NotFound
    end;
  load_node_link s pk :=
    match filter (λ r, pretty (nr_id r) = pk) (node_relations s) with
    | r :: _ => inr r
    | [] => inl NotFound
    end;
  object_permissions request w o :=
    match user request with
    | AnonymousUser => Some NotAuthenticated
    | u => if decide (u = owner) then None else Some PermissionDenied
    end;
  get_user_auth request := auth_of (user request);
  is_bulk_request request := bool_decide (content_type request = bulk);
  has_permission n u p := bool_decide (creator n = u);
  can_edit n a := bool_decide (creator n = auth_user a);
  can_view n a := is_public n || bool_decide (creator n = auth_user a);
  remove_node n a s :=
    let n' := row (_id n) (type n) (is_collection n) true (is_public n) (creator n) in
    inr (n', {| nodes := <[_id n := n']> (nodes s);
                node_relations := filter (λ r, parent r ≠ _id n) (node_relations s) |});
  save n s := {| nodes := <[_id n := n]> (nodes s); node_relations := node_relations s |};
  query_params_to_odm_query request := None;
  base_linked_list request := λ w,
    match kwargs w !! "collection_id" with
    | Some c =>
        (inr (filter (λ n, is_deleted n = false ∧ type n ≠ "osf.collection")
                (omap (λ r, nodes (db w) !! child r)
                   (filter (λ r, parent r = c) (node_relations (db w))))), w)
    | None => (inl (KeyError "collection_id"), w)
    end
|}.

End Fixture.


(** ** Request bodies of the preprint tests
    (api_tests/preprints/views/test_preprint_detail.py) *)
Module PreprintPayload.

(** The Python values the helpers build: [None], strings, lists and
    dict literals (in the order they are written). *)
#[local] Unset Elimination Schemes.
Inductive JSON :=
| JNone
| JStr (s : string)
| JList (items : list JSON)
| JDict (items : list (string * JSON)).
#[local] Set Elimination Schemes.

(** [d[key]] on a dict, [None] when the key is absent or the value is
    not a dict. *)
Definition item (key : string) (j : JSON) : option JSON :=
  match j with
  | JDict items =>
      (fix go (l : list (string * JSON)) : option JSON :=
         match l with
         | [] => None
         | (k, v) :: rest => if decide (k = key) then Some v else go rest
         end) items
  | _ => None
  end.

(** [d[k1][k2]...] *)
Fixpoint path (keys : list string) (j : JSON) : option JSON :=
  match keys with
  | [] => Some j
  | key :: rest =>
      match item key j with
      | Some v => path rest v
      | None => None
      end
  end.

(** Python truthiness of an optional string and of an optional list. *)
Definition truthy_str (o : option string) : bool :=
  match o with
  | Some s => negb (bool_decide (s = ""))
  | None => false
  end.

Definition truthy_list (o : option (list string)) : bool :=
  match o with
  | Some l => negb (bool_decide (l = []))
  | None => false
  end.

Definition of_str (o : option string) : JSON :=
  match o with
  | Some s => JStr s
  | None => JNone
  end.

Definition of_list (o : option (list string)) : JSON :=
  match o with
  | Some l => JList (JStr <$> l)
  | None => JNone
  end.

(** [make_payload.payload] *)
Definition payload (node_id : string) (license_id license_year : option string)
    (copyright_holders : option (list string)) : JSON :=
  let attributes :=
    if truthy_str license_year && truthy_list copyright_holders then
      JDict [("license_record",
              JDict [("year", of_str license_year);
                     ("copyright_holders", of_list copyright_holders)])]
    else if truthy_str license_year then
      JDict [("license_record", JDict [("year", of_str license_year)])]
    else if truthy_list copyright_holders then
      JDict [("license_record",
              JDict [("copyright_holders", of_list copyright_holders)])]
    else JDict [] in
  if truthy_str license_id then
    JDict [("data",
            JDict [("id", JStr node_id);
                   ("attributes", attributes);
                   ("relationships",
                    JDict [("license",
                            JDict [("data",
                                    JDict [("type", JStr "licenses");
                                           ("id", of_str license_id)])])])])]
  else
    JDict [("data", JDict [("id", JStr node_id); ("attributes", attributes)])].

End PreprintPayload.

(** ** A second deployment: registration-frozen collections

    As [Fixture.osf], except that removing a node is refused by the
    model with a [NodeStateError]. *)
Module Frozen.

Definition refusal : string := "Any child components must be deleted prior to deleting this project.".

#[local] Instance osf : Collaborators := {|
  load_collection := @load_collection Fixture.osf;
  load_node_link := @load_node_link Fixture.osf;
  object_permissions := @object_permissions Fixture.osf;
  get_user_auth := @get_user_auth Fixture.osf;
  is_bulk_request := @is_bulk_request Fixture.osf;
  has_permission := @has_permission Fixture.osf;
  can_edit := @can_edit Fixture.osf;
  can_view := @can_view Fixture.osf;
  remove_node n a s := inl (NodeStateError refusal);
  save := @save Fixture.osf;
  query_params_to_odm_query := @query_params_to_odm_query Fixture.osf;
  base_linked_list := @base_linked_list Fixture.osf
|}.

End Frozen.

(** ** Vocabulary of the statements *)

(** The world [w] after the events [evs] have been traced. *)
Definition logged (w : World) (evs : list Event) : World :=
  {| db := db w; kwargs := kwargs w; log := log w ++ evs |}.

(** The principal-dependent half of the default query of the
    collections list, as a proposition about a row. *)
Definition visible_to (u : User) (c : Node) : Prop :=
  if is_anonymous u then is_public c = true else creator c = u.

(** * Properties *)

(** Unfolds the monad down to functions on worlds. *)
Ltac run :=
  repeat (unfold mbind, mret, M_bind, M_ret, bind, ret, raise, try_except,
            get_world, emit, set_kwarg, set_db, save_node,
            get_object_or_error_collection, get_object_or_error_node_link,
            check_object_permissions, CollectionMixin.kwarg in *;
          cbn [fst snd db kwargs log] in * ).

(** Closes a closed decidable goal by evaluation. *)
Ltac by_eval := apply (bool_decide_unpack _); vm_compute; exact I.

(** ** Attribute lookups and comparisons *)

Lemma attr_id n : attr n "_id" = Some (VStr (_id n)).
Proof. reflexivity. Qed.

Lemma attr_type n : attr n "type" = Some (VStr (type n)).
Proof. reflexivity. Qed.

Lemma attr_is_deleted n : attr n "is_deleted" = Some (VBool (is_deleted n)).
Proof. reflexivity. Qed.

Lemma attr_is_public n : attr n "is_public" = Some (VBool (is_public n)).
Proof. reflexivity. Qed.

Lemma attr_creator n : attr n "creator" = Some (VUser (creator n)).
Proof. reflexivity. Qed.

Lemma compare_eq x v : compare "eq" x v = true ↔ x = v.
Proof. change (compare "eq" x v) with (bool_decide (x = v)). apply bool_decide_eq_true. Qed.

Lemma compare_ne x v : compare "ne" x v = true ↔ x ≠ v.
Proof.
  change (compare "ne" x v) with (negb (bool_decide (x = v))).
  by rewrite negb_true_iff, bool_decide_eq_false.
Qed.

(** ** Collection lookup *)
Section CollectionLookup.
Context `{Collaborators}.

(** What [get_node] does, case by case. *)
Lemma get_node_run request chk w :
  CollectionMixin.get_node request chk w =
  match kwargs w !! "collection_id" with
  | None => (inl (KeyError "collection_id"), w)
  | Some pk =>
      let w1 := logged w [EvGetObject "collection" pk] in
      match load_collection (db w) pk with
      | inl e => (inl e, w1)
      | inr n =>
          if is_collection n then
            if chk then
              let w2 := logged w1 [EvCheckObjectPermissions (ONode n)] in
              match object_permissions request w2 (ONode n) with
              | Some e => (inl e, w2)
              | None => (inr n, w2)
              end
            else (inr n, w1)
          else (inl NotFound, w1)
      end
  end.
Proof.
  unfold CollectionMixin.get_node, CollectionMixin.node_lookup_url_kwarg, logged.
  run. destruct (kwargs w !! "collection_id") as [pk|]; [|done].
  cbn. destruct (load_collection (db w) pk) as [e|n]; cbn; [done|].
  destruct (is_collection n); cbn; [|done].
  destruct chk; cbn; [|done].
  by destruct (object_permissions _ _ _).
Qed.

Lemma get_node_db request chk w : db (CollectionMixin.get_node request chk w).2 = db w.
Proof.
  rewrite get_node_run. cbv zeta. repeat case_match; done.
Qed.

Lemma get_node_kwargs request chk w :
  kwargs (CollectionMixin.get_node request chk w).2 = kwargs w.
Proof.
  rewrite get_node_run. cbv zeta. repeat case_match; done.
Qed.

(** C7: through [CollectionMixin.get_node], an identifier that
    resolves to an entity that is not a collection yields [NotFound],
    with no permission check in the trace; and whenever the object
    permission check does run, the loader has returned an entity and
    that entity is a collection. *)
Theorem get_node_type_check_then_permissions request chk w :
  (∀ pk n,
     kwargs w !! "collection_id" = Some pk →
     load_collection (db w) pk = inr n →
     is_collection n = false →
     CollectionMixin.get_node request chk w =
       (inl NotFound, logged w [EvGetObject "collection" pk])) ∧
  (∃ evs,
     log (CollectionMixin.get_node request chk w).2 = log w ++ evs ∧
     ∀ o, EvCheckObjectPermissions o ∈ evs →
       ∃ pk n,
         kwargs w !! "collection_id" = Some pk ∧
         load_collection (db w) pk = inr n ∧
         is_collection n = true ∧
         o = ONode n ∧
         evs = [EvGetObject "collection" pk; EvCheckObjectPermissions o]).
Proof.
  split.
  - intros pk n Hk Hl Hc. rewrite get_node_run, Hk. cbn. by rewrite Hl, Hc.
  - rewrite get_node_run.
    destruct (kwargs w !! "collection_id") as [pk|] eqn:Hk; cbn.
    2:{ exists []. rewrite app_nil_r. split; [done|]. intros o Ho. inversion Ho. }
    destruct (load_collection (db w) pk) as [e|n] eqn:Hl; cbn.
    { exists [EvGetObject "collection" pk]. split; [done|].
      intros o Ho. apply list_elem_of_singleton in Ho. discriminate. }
    destruct (is_collection n) eqn:Hc.
    2:{ exists [EvGetObject "collection" pk]. split; [done|].
        intros o Ho. apply list_elem_of_singleton in Ho. discriminate. }
    destruct chk.
    2:{ exists [EvGetObject "collection" pk]. split; [done|].
        intros o Ho. apply list_elem_of_singleton in Ho. discriminate. }
    exists [EvGetObject "collection" pk; EvCheckObjectPermissions (ONode n)].
    split.
    { destruct (object_permissions _ _ _); cbn; by rewrite <- app_assoc. }
    intros o Ho. exists pk, n.
    apply elem_of_cons in Ho as [Ho|Ho]; [discriminate|].
    apply list_elem_of_singleton in Ho. injection Ho as ->. done.
Qed.

End CollectionLookup.

(** ** The collections list *)
Section CollectionListProps.
Context `{Collaborators}.

Lemma default_query_matches request c :
  matches (CollectionList.get_default_odm_query request) c = true ↔
  is_deleted c = false ∧ visible_to (user request) c.
Proof.
  unfold CollectionList.get_default_odm_query, visible_to.
  assert (VBool (is_deleted c) ≠ VBool true ↔ is_deleted c = false) as Hdel.
  { destruct (is_deleted c); split; congruence. }
  destruct (user request) as [|guid]; cbn [is_anonymous negb matches];
    rewrite attr_is_deleted, ?attr_is_public, ?attr_creator,
      andb_true_iff, compare_ne, compare_eq, Hdel;
    split; intros [? ?]; split; congruence.
Qed.

Lemma request_query_implies_default request c :
  matches (CollectionList.get_query_from_request request) c = true →
  matches (CollectionList.get_default_odm_query request) c = true.
Proof.
  unfold CollectionList.get_query_from_request.
  destruct (query_params_to_odm_query request) as [q|]; [|done].
  cbn [matches]. rewrite andb_true_iff. tauto.
Qed.

Lemma elem_of_Collection_find s q c :
  c ∈ Collection_find s q ↔
  matches q c = true ∧ is_collection c = true ∧ ∃ pk, nodes s !! pk = Some c.
Proof.
  unfold Collection_find.
  rewrite !list_elem_of_filter, list_elem_of_fmap, !Is_true_true.
  split.
  - intros (Hm & Hc & [pk c'] & -> & Hin).
    apply elem_of_map_to_list in Hin. eauto.
  - intros (Hm & Hc & pk & Hpk). repeat split; [done..|].
    exists (pk, c). split; [done|]. by apply elem_of_map_to_list.
Qed.

(** C10: a non-bulk request to the collections list always gets a
    query set, and every collection in it is not soft-deleted and is
    created by the requesting user when the principal is
    authenticated, public when the principal is anonymous; so an
    anonymous principal sees neither a private nor a deleted
    collection.  Without filters the listing is exactly those rows. *)
Theorem list_default_query_restricts request w :
  is_bulk_request request = false →
  ∃ qs,
    CollectionList.get_queryset request w = (inr qs, w) ∧
    (∀ c, c ∈ qs →
       is_deleted c = false ∧ visible_to (user request) c ∧
       (is_anonymous (user request) = true →
          is_public c = true ∧ is_deleted c = false)) ∧
    (query_params_to_odm_query request = None →
     ∀ c pk, nodes (db w) !! pk = Some c → is_collection c = true →
       is_deleted c = false → visible_to (user request) c → c ∈ qs).
Proof.
  intros Hbulk.
  exists (Collection_find (db w) (CollectionList.get_query_from_request request)).
  split; [|split].
  - unfold CollectionList.get_queryset. run. by rewrite Hbulk.
  - intros c Hc. apply elem_of_Collection_find in Hc as (Hm & _ & _).
    apply request_query_implies_default, default_query_matches in Hm as [Hd Hv].
    split; [done|]. split; [done|].
    intros Ha. unfold visible_to in Hv. rewrite Ha in Hv. done.
  - intros Hnone c pk Hpk Hc Hd Hv.
    apply elem_of_Collection_find. split; [|eauto].
    unfold CollectionList.get_query_from_request. rewrite Hnone.
    by apply default_query_matches.
Qed.

Lemma allow_bulk_destroy_resources_Forall u resource_list :
  CollectionList.allow_bulk_destroy_resources u resource_list = true ↔
  Forall (λ node, has_permission node u ADMIN = true) resource_list.
Proof.
  induction resource_list as [|node rest IH]; cbn.
  - split; [constructor|done].
  - rewrite Forall_cons. destruct (has_permission node u ADMIN); cbn.
    + rewrite IH. tauto.
    + split; [done|]. by intros [? _].
Qed.

(** C9: the bulk delete of a list of collections is allowed exactly
    when the user has admin permission on every collection of the
    list; when some collection lacks it, the whole bulk delete is
    refused with [PermissionDenied] (403) and the store is left as it
    was, so no collection of the list is deleted. *)
Theorem bulk_destroy_needs_admin_on_all request resource_list w :
  (CollectionList.allow_bulk_destroy_resources (user request) resource_list = true ↔
   ∀ node, node ∈ resource_list → has_permission node (user request) ADMIN = true) ∧
  (∀ node, node ∈ resource_list →
     has_permission node (user request) ADMIN = false →
     CollectionList.allow_bulk_destroy_resources (user request) resource_list = false ∧
     CollectionList.bulk_destroy request resource_list w = (inl PermissionDenied, w)).
Proof.
  split.
  - by rewrite allow_bulk_destroy_resources_Forall, Forall_forall.
  - intros node Hin Hno.
    assert (CollectionList.allow_bulk_destroy_resources (user request) resource_list = false)
      as Hallow.
    { apply not_true_is_false. rewrite allow_bulk_destroy_resources_Forall, Forall_forall.
      intros Hall. specialize (Hall node Hin). congruence. }
    split; [done|]. unfold CollectionList.bulk_destroy. by rewrite Hallow.
Qed.

End CollectionListProps.

(** ** Scoped views of the linked targets *)
Section ScopedViews.
Context `{Collaborators}.

Lemma elem_of_qs_filter field v qs n :
  n ∈ qs_filter field v qs ↔ attr n field = Some v ∧ n ∈ qs.
Proof.
  unfold qs_filter. by rewrite list_elem_of_filter, Is_true_true, bool_decide_eq_true.
Qed.

Lemma elem_of_qs_exclude field v qs n :
  n ∈ qs_exclude field v qs ↔ attr n field ≠ Some v ∧ n ∈ qs.
Proof.
  unfold qs_exclude.
  by rewrite list_elem_of_filter, Is_true_true, negb_true_iff, bool_decide_eq_false.
Qed.

(** C2: over the targets linked from a collection, the node-scoped
    list returns exactly the targets whose type is not registration
    and the registration-scoped list exactly those whose type is
    registration; no target appears in both, and none is lost. *)
Theorem scoped_lists_partition_by_type request w qs w' :
  base_linked_list request w = (inr qs, w') →
  ∃ linked_nodes linked_registrations,
    LinkedNodesList.get_queryset request w = (inr linked_nodes, w') ∧
    LinkedRegistrationsList.get_queryset request w = (inr linked_registrations, w') ∧
    (∀ n, n ∈ linked_nodes ↔ n ∈ qs ∧ type n ≠ "osf.registration") ∧
    (∀ n, n ∈ linked_registrations ↔ n ∈ qs ∧ type n = "osf.registration") ∧
    (∀ n, ¬ (n ∈ linked_nodes ∧ n ∈ linked_registrations)).
Proof.
  intros Hbase.
  exists (qs_exclude "type" (VStr "osf.registration") qs),
         (qs_filter "type" (VStr "osf.registration") qs).
  assert (∀ n, attr n "type" = Some (VStr "osf.registration") ↔
               type n = "osf.registration") as Htype.
  { intros n. rewrite attr_type. split; congruence. }
  split; [|split; [|split; [|split]]].
  - unfold LinkedNodesList.get_queryset. run. by rewrite Hbase.
  - unfold LinkedRegistrationsList.get_queryset. run. by rewrite Hbase.
  - intros n. rewrite elem_of_qs_exclude, Htype. tauto.
  - intros n. rewrite elem_of_qs_filter, Htype. tauto.
  - intros n. rewrite elem_of_qs_exclude, elem_of_qs_filter. tauto.
Qed.

End ScopedViews.

(** ** Node links *)
Section NodeLinks.
Context `{Collaborators}.

Lemma elem_of_node_relations_of s node r :
  r ∈ node_relations_of s node ↔ parent r = _id node ∧ r ∈ node_relations s.
Proof. unfold node_relations_of. by rewrite list_elem_of_filter. Qed.

Lemma child_attr_Some s r field v :
  child_attr s r field = Some v ↔
  ∃ c, nodes s !! child r = Some c ∧ attr c field = Some v.
Proof.
  unfold child_attr. destruct (nodes s !! child r) as [c|]; cbn.
  - split; [eauto|]. by intros (c' & [= <-] & ?).
  - split; [done|]. by intros (c' & ? & ?).
Qed.

(** C8: when the collection lookup succeeds, the legacy node-links
    list is returned, and every link in it is a link of that
    collection whose target is a live (not soft-deleted) entity that
    is not collection-typed; every such link of the collection is in
    the list. *)
Theorem node_links_list_live_non_collection request w node w' :
  CollectionMixin.get_node request true w = (inr node, w') →
  ∃ qs,
    NodeLinksList.get_queryset request w = (inr qs, w') ∧
    ∀ r, r ∈ qs ↔
      r ∈ node_relations (db w) ∧ parent r = _id node ∧
      ∃ target, nodes (db w) !! child r = Some target ∧
                is_deleted target = false ∧ type target ≠ "osf.collection".
Proof.
  intros Hnode.
  assert (db w' = db w) as Hdb.
  { pose proof (get_node_db request true w) as Hd. by rewrite Hnode in Hd. }
  eexists. split.
  { unfold NodeLinksList.get_queryset. run. rewrite Hnode. reflexivity. }
  intros r. unfold rel_exclude_child, rel_filter_child.
  rewrite !list_elem_of_filter, !Is_true_true, negb_true_iff,
    bool_decide_eq_false, bool_decide_eq_true, elem_of_node_relations_of, Hdb.
  rewrite !child_attr_Some. split.
  - intros (Hnc & (target & Ht & Hdel) & Hp & Hin).
    split; [done|]. split; [done|]. exists target. split; [done|].
    rewrite attr_is_deleted in Hdel. split; [congruence|].
    intros Hty. apply Hnc. exists target. split; [done|].
    rewrite attr_type. congruence.
  - intros (Hin & Hp & target & Ht & Hdel & Hty).
    split; [|split; [|done]].
    + intros (c & Hc & Hattr). rewrite Ht in Hc. injection Hc as <-.
      rewrite attr_type in Hattr. congruence.
    + exists target. split; [done|]. rewrite attr_is_deleted. congruence.
Qed.

Lemma get_object_db request w : db (NodeLinksDetail.get_object request w).2 = db w.
Proof.
  unfold NodeLinksDetail.get_object. run.
  destruct (kwargs w !! "node_link_id") as [pk|]; cbn; [|done].
  destruct (load_node_link (db w) pk) as [e|r]; cbn; [done|].
  destruct (kwargs w !! "collection_id") as [c|]; cbn; [|done].
  by destruct (object_permissions _ _ _).
Qed.

Lemma rm_pointer_mismatch node pointer auth w :
  parent pointer ≠ _id node →
  rm_pointer node pointer auth w =
    (inl (ValueError "Node link does not belong to the requested node."), w).
Proof.
  intros Hne. unfold rm_pointer. run.
  rewrite bool_decide_eq_false_2; [done|].
  rewrite elem_of_node_relations_of. tauto.
Qed.

(** C6: a DELETE of a single node link, for which the collection of
    the URL and the addressed link are both found, and the link
    belongs to a different collection, raises [ValidationError]
    (neither [NotFound] nor success); the store is unchanged, so the
    link is not removed. *)
Theorem node_link_destroy_wrong_parent request instance w node w1 pointer w2 :
  CollectionMixin.get_node request true w = (inr node, w1) →
  NodeLinksDetail.get_object request w1 = (inr pointer, w2) →
  parent pointer ≠ _id node →
  ∃ message,
    NodeLinksDetail.perform_destroy request instance w =
      (inl (ValidationError message), w2) ∧
    db w2 = db w ∧
    (pointer ∈ node_relations (db w) → pointer ∈ node_relations (db w2)).
Proof.
  intros Hnode Hobj Hne.
  assert (db w2 = db w) as Hdb.
  { pose proof (get_node_db request true w) as Hd1. rewrite Hnode in Hd1.
    pose proof (get_object_db request w1) as Hd2. rewrite Hobj in Hd2.
    cbn in *. congruence. }
  exists "Node link does not belong to the requested node.".
  split; [|split; [done|by rewrite Hdb]].
  unfold NodeLinksDetail.perform_destroy.
  unfold mbind, M_bind, bind. rewrite Hnode, Hobj.
  unfold try_except. rewrite rm_pointer_mismatch by done. reflexivity.
Qed.

End NodeLinks.

(** ** The set reconciler *)
Import Reconciler.

Section ReconcilerLists.

Lemma filter_none {A} (P : A → Prop) `{∀ x, Decision (P x)} (l : list A) :
  (∀ x, x ∈ l → ¬ P x) → filter P l = [].
Proof.
  induction l as [|a l IH]; intros Hl; [done|].
  rewrite filter_cons_False by (apply Hl; left).
  apply IH. intros x Hx. apply Hl. by right.
Qed.

Lemma filter_all {A} (P : A → Prop) `{∀ x, Decision (P x)} (l : list A) :
  (∀ x, x ∈ l → P x) → filter P l = l.
Proof.
  induction l as [|a l IH]; intros Hl; [done|].
  rewrite filter_cons_True by (apply Hl; left).
  f_equal. apply IH. intros x Hx. apply Hl. by right.
Qed.

Lemma elem_of_collapse ids x : x ∈ collapse ids ↔ x ∈ ids.
Proof.
  induction ids as [|id rest IH]; [done|]. cbn [collapse].
  rewrite !elem_of_cons, list_elem_of_filter, IH. split.
  - intros [->|[_ Hin]]; [by left|by right].
  - intros [->|Hin]; [by left|].
    destruct (decide (x = id)) as [->|Hne]; [by left|by right].
Qed.

Lemma NoDup_collapse ids : NoDup (collapse ids).
Proof.
  induction ids as [|id rest IH]; cbn [collapse]; [constructor|].
  constructor.
  - rewrite list_elem_of_filter. by intros [Hne _].
  - by apply NoDup_filter.
Qed.

Lemma collapse_nil_inv ids : (∀ x, x ∉ ids) → collapse ids = [].
Proof.
  destruct ids as [|id rest]; [done|]. intros Hno. destruct (Hno id). left.
Qed.

End ReconcilerLists.

Section ReconcilerValidation.
Context `{Collaborators}.
Variables (s : Store) (t : Subtype) (principal : Auth).

Lemma validate_filter_ne y ids :
  violation s t principal y = None →
  validate s t principal (filter (λ x, x ≠ y) ids) = validate s t principal ids.
Proof.
  intros Hy. induction ids as [|id rest IH]; [done|].
  destruct (decide (id = y)) as [->|Hne].
  - rewrite filter_cons_False by (by intros Hne). cbn [validate]. by rewrite Hy.
  - rewrite filter_cons_True by done. cbn [validate]. by rewrite IH.
Qed.

(** Collapsing duplicates does not change the first violation. *)
Lemma validate_collapse ids :
  validate s t principal (collapse ids) = validate s t principal ids.
Proof.
  induction ids as [|id rest IH]; [done|]. cbn [collapse validate].
  destruct (violation s t principal id) eqn:Hv; [done|].
  by rewrite validate_filter_ne.
Qed.

Lemma validate_app_valid good ids :
  (∀ y, y ∈ good → violation s t principal y = None) →
  validate s t principal (good ++ ids) = validate s t principal ids.
Proof.
  induction good as [|g good IH]; intros Hgood; [done|].
  cbn [app validate]. rewrite (Hgood g) by left.
  apply IH. intros y Hy. apply Hgood. by right.
Qed.

Lemma validate_all_valid ids :
  (∀ y, y ∈ ids → violation s t principal y = None) →
  validate s t principal ids = inr tt.
Proof.
  intros Hall. rewrite <- (app_nil_r ids). by rewrite validate_app_valid.
Qed.

Lemma violation_None_resolves y :
  violation s t principal y = None → is_Some (resolve s t y).
Proof.
  unfold violation. destruct (resolve s t y); [eauto|done].
Qed.

Lemma violation_kind y e :
  violation s t principal y = Some e →
  (e = NotFound ∨ e = Forbidden) ∧ (resolve s t y = None → e = NotFound).
Proof.
  unfold violation. destruct (resolve s t y) as [target|].
  - destruct (can_view target principal); cbn; [done|].
    intros [= <-]. split; [by right|done].
  - intros [= <-]. split; [by left|done].
Qed.

End ReconcilerValidation.

Section ReconcilerStore.
Context `{Collaborators}.

Lemma Exists_links_count s c x :
  Exists (links c x) (node_relations s) ↔ 0 < link_count s c x.
Proof.
  unfold link_count. rewrite Exists_exists. split.
  - intros (r & Hin & Hl).
    assert (r ∈ filter (links c x) (node_relations s)) as Hr
      by by apply list_elem_of_filter.
    destruct (filter (links c x) (node_relations s)); [inversion Hr|cbn; lia].
  - intros Hlen.
    destruct (filter (links c x) (node_relations s)) as [|r l] eqn:Hf; [cbn in Hlen; lia|].
    assert (r ∈ filter (links c x) (node_relations s)) as Hr by (rewrite Hf; left).
    apply list_elem_of_filter in Hr as [? ?]. eauto.
Qed.

Lemma link_count_create s c id x :
  link_count (create_link c s id) c x =
  if decide (x = id) then max 1 (link_count s c x) else link_count s c x.
Proof.
  unfold create_link.
  destruct (decide (Exists (links c id) (node_relations s))) as [Hex|Hno].
  - case_decide as Hx; [|done]. subst x.
    apply Exists_links_count in Hex. lia.
  - unfold link_count at 1. cbn [node_relations].
    rewrite filter_app, length_app. fold (link_count s c x).
    case_decide as Hx.
    + subst x. rewrite filter_cons_True by done. cbn.
      assert (link_count s c id = 0) as ->; [|done].
      rewrite Exists_links_count in Hno. lia.
    + rewrite filter_cons_False; [cbn; lia|].
      intros [_ Hc]. cbn in Hc. congruence.
Qed.

Lemma link_count_destroy s c id x :
  link_count (destroy_link c s id) c x =
  if decide (x = id) then 0 else link_count s c x.
Proof.
  unfold link_count, destroy_link. cbn [node_relations].
  rewrite list_filter_filter. case_decide as Hx.
  - subst x. rewrite filter_none; [done|]. tauto.
  - f_equal. apply list_filter_iff. intros r. split; [tauto|].
    intros Hl. split; [done|]. intros [_ Hc]. destruct Hl as [_ Hc']. congruence.
Qed.

Lemma link_count_foldl_create c ids s x :
  link_count (foldl (create_link c) s ids) c x =
  if decide (x ∈ ids) then max 1 (link_count s c x) else link_count s c x.
Proof.
  revert s. induction ids as [|id rest IH]; intros s; cbn [foldl].
  - case_decide as Hx; [inversion Hx|done].
  - rewrite IH, link_count_create.
    destruct (decide (x ∈ rest)) as [Hin|Hnin], (decide (x = id)) as [Heq|Hne].
    + rewrite decide_True by (by right). lia.
    + rewrite decide_True by (by right). lia.
    + rewrite decide_True by (subst; by left). lia.
    + rewrite decide_False; [done|]. by intros [?|?]%elem_of_cons.
Qed.

Lemma link_count_foldl_destroy c ids s x :
  link_count (foldl (destroy_link c) s ids) c x =
  if decide (x ∈ ids) then 0 else link_count s c x.
Proof.
  revert s. induction ids as [|id rest IH]; intros s; cbn [foldl].
  - case_decide as Hx; [inversion Hx|done].
  - rewrite IH, link_count_destroy.
    destruct (decide (x ∈ rest)) as [Hin|Hnin], (decide (x = id)) as [Heq|Hne].
    + by rewrite decide_True by (by right).
    + by rewrite decide_True by (by right).
    + by rewrite decide_True by (subst; by left).
    + rewrite decide_False; [done|]. by intros [?|?]%elem_of_cons.
Qed.

Lemma nodes_foldl_create c ids s : nodes (foldl (create_link c) s ids) = nodes s.
Proof.
  revert s. induction ids as [|id rest IH]; intros s; cbn [foldl]; [done|].
  rewrite IH. unfold create_link. by case_decide.
Qed.

Lemma nodes_foldl_destroy c ids s : nodes (foldl (destroy_link c) s ids) = nodes s.
Proof.
  revert s. induction ids as [|id rest IH]; intros s; cbn [foldl]; [done|].
  by rewrite IH.
Qed.

Lemma resolve_nodes s s' t id : nodes s = nodes s' → resolve s t id = resolve s' t id.
Proof. unfold resolve. by intros ->. Qed.

Lemma resolve_touch now c s t id :
  is_Some (resolve (touch now c s) t id) ↔ is_Some (resolve s t id).
Proof.
  unfold resolve, touch. cbn [nodes]. rewrite lookup_alter.
  case_decide as Hc; [subst id|done].
  destruct (nodes s !! c) as [n|]; cbn; [|done].
  change (subtype_of (set_date_modified now n)) with (subtype_of n).
  by destruct (negb (is_deleted n) && bool_decide (subtype_of n = Some t)).
Qed.

Lemma elem_of_current_ids s collection t x :
  x ∈ current_ids s collection t ↔
  0 < link_count s (_id collection) x ∧ is_Some (resolve s t x).
Proof.
  unfold current_ids. rewrite list_elem_of_filter, list_elem_of_fmap.
  rewrite <- Exists_links_count, Exists_exists. unfold node_relations_of, links.
  split.
  - intros (Hres & r & -> & Hin). apply list_elem_of_filter in Hin as [Hp Hin].
    split; [|done]. exists r. done.
  - intros ((r & Hin & Hp & Hc) & Hres). split; [done|].
    exists r. split; [done|]. by apply list_elem_of_filter.
Qed.

Lemma current_ids_touch now s collection t :
  current_ids (touch now (_id collection) s) collection t = current_ids s collection t.
Proof.
  unfold current_ids.
  change (node_relations_of (touch now (_id collection) s) collection)
    with (node_relations_of s collection).
  apply list_filter_iff. intros id. apply resolve_touch.
Qed.

Lemma touch_date_modified now c s row :
  nodes s !! c = Some row →
  date_modified <$> nodes (touch now c s) !! c = Some now.
Proof.
  intros Hrow. unfold touch. cbn [nodes].
  rewrite lookup_alter, decide_True by done. by rewrite Hrow.
Qed.

End ReconcilerStore.

Section ReconcilerProps.
Context `{Collaborators}.

(** The run of [reconcile] for a principal who may edit the
    collection: the validation of [to_add], then the new store. *)
Lemma reconcile_run collection t requested_ids mode principal now w :
  can_edit collection principal = true →
  reconcile collection t requested_ids mode principal now w =
    let d := diff mode requested_ids (current_ids (db w) collection t) in
    match validate (db w) t principal d.1 with
    | inl e => (inl e, w)
    | inr _ =>
        let s3 :=
          touch now (_id collection)
            (foldl (destroy_link (_id collection))
               (foldl (create_link (_id collection)) (db w) d.1) d.2) in
        (inr (status mode, current_ids s3 collection t),
         {| db := s3; kwargs := kwargs w; log := log w |})
    end.
Proof.
  intros Hedit. unfold reconcile. rewrite Hedit. cbn [negb]. run.
  destruct (diff mode requested_ids (current_ids (db w) collection t))
    as [to_add to_remove].
  cbn [fst snd]. unfold lift.
  by destruct (validate (db w) t principal to_add).
Qed.

Lemma to_add_not_remove mode requested_ids current :
  mode ≠ remove →
  (diff mode requested_ids current).1 =
    collapse (filter (λ x, x ∉ current) requested_ids).
Proof. by destruct mode. Qed.

(** C1: in create-only or replace mode, additions are validated in
    the order of the request, each with the existence/type check
    before the read-permission check; the first identifier in
    violation aborts the operation with its error ([NotFound] or
    [Forbidden]) and the world, hence the store, is exactly as before:
    no link is created, not even for the valid identifiers before
    it. *)
Theorem additions_all_or_nothing
    collection t requested_ids mode principal now w good bad rest e :
  mode ≠ remove →
  can_edit collection principal = true →
  requested_ids = good ++ bad :: rest →
  (∀ y, y ∈ good →
     y ∈ current_ids (db w) collection t ∨ violation (db w) t principal y = None) →
  bad ∉ current_ids (db w) collection t →
  violation (db w) t principal bad = Some e →
  reconcile collection t requested_ids mode principal now w = (inl e, w) ∧
  (e = NotFound ∨ e = Forbidden) ∧
  (resolve (db w) t bad = None → e = NotFound).
Proof.
  intros Hmode Hedit -> Hgood Hbad He.
  split; [|by eapply violation_kind].
  rewrite reconcile_run by done. cbv zeta.
  rewrite to_add_not_remove by done.
  rewrite validate_collapse, filter_app, filter_cons_True by done.
  rewrite validate_app_valid.
  - cbn [validate]. by rewrite He.
  - intros y [Hny Hy]%list_elem_of_filter.
    destruct (Hgood y Hy) as [Hcur|Hv]; [by destruct Hny|done].
Qed.

(** C3: a replace with an empty request is accepted (200) for a
    principal who may edit the collection; every currently linked
    target loses its link, the resulting link set is empty, and the
    modification timestamp of the collection becomes the time of the
    request, also when nothing was linked before; more generally every
    successful reconciliation sets that timestamp. *)
Theorem replace_empty_clears collection t principal now w row :
  can_edit collection principal = true →
  nodes (db w) !! _id collection = Some row →
  (∃ w',
     reconcile collection t [] replace principal now w = (inr (200, []), w') ∧
     current_ids (db w') collection t = [] ∧
     (∀ x, x ∈ current_ids (db w) collection t →
        link_count (db w') (_id collection) x = 0) ∧
     date_modified <$> nodes (db w') !! _id collection = Some now) ∧
  (∀ requested_ids mode r w',
     reconcile collection t requested_ids mode principal now w = (inr r, w') →
     date_modified <$> nodes (db w') !! _id collection = Some now).
Proof.
  intros Hedit Hrow. split.
  - eexists. rewrite reconcile_run by done. cbv zeta.
    cbn [diff fst snd collapse validate foldl status].
    rewrite filter_nil. cbn [collapse validate foldl].
    set (current := current_ids (db w) collection t).
    rewrite (filter_all (λ x, x ∉ [])) by (intros ? _; apply not_elem_of_nil).
    rewrite current_ids_touch.
    assert (∀ x, x ∈ current →
              link_count (foldl (destroy_link (_id collection)) (db w) current)
                (_id collection) x = 0) as Hzero.
    { intros x Hx. by rewrite link_count_foldl_destroy, decide_True. }
    assert (current_ids (foldl (destroy_link (_id collection)) (db w) current)
              collection t = []) as Hempty.
    { apply elem_of_nil_inv. intros x [Hcount Hres]%elem_of_current_ids.
      rewrite (resolve_nodes _ (db w)) in Hres by apply nodes_foldl_destroy.
      rewrite link_count_foldl_destroy in Hcount.
      case_decide as Hx; [lia|]. apply Hx. by apply elem_of_current_ids. }
    rewrite Hempty. split; [reflexivity|]. cbn [db].
    rewrite current_ids_touch. split; [done|]. split; [exact Hzero|].
    eapply touch_date_modified. by rewrite nodes_foldl_destroy.
  - intros requested_ids mode r w'. rewrite reconcile_run by done. cbv zeta.
    destruct (validate _ _ _ _); [done|]. intros [= _ <-]. cbn [db].
    eapply touch_date_modified.
    by rewrite nodes_foldl_destroy, nodes_foldl_create.
Qed.

End ReconcilerProps.

Section ReconcilerSetSemantics.
Context `{Collaborators}.

Lemma link_count_touch now c s c' x :
  link_count (touch now c s) c' x = link_count s c' x.
Proof. reflexivity. Qed.

Lemma to_remove_keeps_requested mode requested_ids current x :
  mode ≠ remove → x ∈ requested_ids → x ∉ (diff mode requested_ids current).2.
Proof.
  intros Hmode Hx. destruct mode; cbn [diff snd]; [apply not_elem_of_nil| |done].
  intros [Hnx _]%list_elem_of_filter. done.
Qed.

(** C4: for a principal who may edit the collection, a replace whose
    request names exactly the currently linked targets, in any order
    and with any repetition, returns 200 with the current set and
    leaves the links as they were; and in create-only or replace
    mode, when every addition is valid and no pair is linked twice
    beforehand, the operation succeeds and each requested identifier,
    however often it was repeated, ends with exactly one link and is
    in the returned set. *)
Theorem replace_same_set_and_duplicates collection t requested_ids principal now w :
  can_edit collection principal = true →
  ((∀ x, x ∈ requested_ids ↔ x ∈ current_ids (db w) collection t) →
   ∃ w',
     reconcile collection t requested_ids replace principal now w =
       (inr (200, current_ids (db w) collection t), w') ∧
     node_relations (db w') = node_relations (db w)) ∧
  (∀ mode,
     mode ≠ remove →
     (∀ x, (link_count (db w) (_id collection) x ≤ 1)%nat) →
     (∀ x, x ∈ requested_ids →
        x ∈ current_ids (db w) collection t ∨ violation (db w) t principal x = None) →
     ∃ ids w',
       reconcile collection t requested_ids mode principal now w =
         (inr (status mode, ids), w') ∧
       ∀ x, x ∈ requested_ids →
         link_count (db w') (_id collection) x = 1 ∧ x ∈ ids).
Proof.
  intros Hedit. split.
  - intros Hsame. eexists. rewrite reconcile_run by done. cbv zeta.
    cbn [diff fst snd].
    rewrite (filter_none (λ x, x ∉ current_ids (db w) collection t))
      by (intros x Hx Hnx; apply Hnx, Hsame, Hx).
    rewrite (filter_none (λ x, x ∉ requested_ids))
      by (intros x Hx Hnx; apply Hnx, Hsame, Hx).
    cbn [collapse validate foldl status]. rewrite current_ids_touch.
    split; reflexivity.
  - intros mode Hmode Honce Hvalid.
    set (current := current_ids (db w) collection t) in *.
    eexists _, _. rewrite reconcile_run by done. cbv zeta. fold current.
    rewrite to_add_not_remove by done.
    set (to_add := collapse (filter (λ x, x ∉ current) requested_ids)).
    assert (validate (db w) t principal to_add = inr tt) as ->.
    { unfold to_add. rewrite validate_collapse. apply validate_all_valid.
      intros y [Hny Hy]%list_elem_of_filter.
      destruct (Hvalid y Hy) as [Hcur|Hv]; [by destruct Hny|done]. }
    split; [reflexivity|]. cbn [db]. intros x Hx.
    assert (link_count
              (foldl (destroy_link (_id collection))
                 (foldl (create_link (_id collection)) (db w) to_add)
                 (diff mode requested_ids current).2) (_id collection) x = 1) as Hone.
    { rewrite link_count_foldl_destroy, decide_False
        by by apply to_remove_keeps_requested.
      rewrite link_count_foldl_create. specialize (Honce x).
      case_decide as Hadd; [lia|].
      assert (x ∈ current) as Hcur.
      { destruct (decide (x ∈ current)) as [|Hn]; [done|]. destruct Hadd.
        unfold to_add. rewrite elem_of_collapse. by apply list_elem_of_filter. }
      apply elem_of_current_ids in Hcur as [? _]. lia. }
    subst to_add. rewrite link_count_touch. split; [done|].
    apply elem_of_current_ids. rewrite link_count_touch, Hone. split; [lia|].
    apply resolve_touch.
    rewrite (resolve_nodes _ (db w))
      by by rewrite nodes_foldl_destroy, nodes_foldl_create.
    destruct (Hvalid x Hx) as [Hcur|Hv].
    + by apply elem_of_current_ids in Hcur as [_ ?].
    + by eapply violation_None_resolves.
Qed.

Lemma destroy_link_idemp c s x :
  destroy_link c (destroy_link c s x) x = destroy_link c s x.
Proof.
  unfold destroy_link. cbn [nodes node_relations]. f_equal.
  rewrite list_filter_filter. apply list_filter_iff. tauto.
Qed.

(** C5: for a principal who may edit the collection, a remove-mode
    reconciliation always succeeds (204); no requested identifier is
    linked afterwards; when none of the requested identifiers is
    currently linked the links are left exactly as they were and the
    current set is returned; and destroying a link twice is the same
    as destroying it once. *)
Theorem remove_absent_is_noop collection t requested_ids principal now w :
  can_edit collection principal = true →
  ∃ ids w',
    reconcile collection t requested_ids remove principal now w =
      (inr (204, ids), w') ∧
    (∀ x, x ∈ requested_ids → x ∉ ids) ∧
    ((∀ x, x ∈ requested_ids → x ∉ current_ids (db w) collection t) →
       node_relations (db w') = node_relations (db w) ∧
       ids = current_ids (db w) collection t) ∧
    (∀ s x,
       destroy_link (_id collection) (destroy_link (_id collection) s x) x =
       destroy_link (_id collection) s x).
Proof.
  intros Hedit.
  set (current := current_ids (db w) collection t).
  eexists _, _. rewrite reconcile_run by done. cbv zeta. fold current.
  cbn [diff fst snd validate foldl status].
  split; [reflexivity|]. cbn [db]. rewrite current_ids_touch.
  split; [|split; [|intros; apply destroy_link_idemp]].
  - intros x Hx [Hcount Hres]%elem_of_current_ids.
    rewrite (resolve_nodes _ (db w)) in Hres by apply nodes_foldl_destroy.
    rewrite link_count_foldl_destroy in Hcount. case_decide as Hrm; [lia|].
    apply Hrm. rewrite elem_of_collapse. apply list_elem_of_filter.
    split; [|done]. by apply elem_of_current_ids.
  - intros Habsent.
    rewrite (filter_none (λ x, x ∈ current))
      by (intros x Hx Hin; by apply (Habsent x)).
    cbn [collapse foldl]. done.
Qed.

End ReconcilerSetSemantics.

(** ** The properties at work on the concrete deployment *)
Section Witnesses.
Import Fixture.

(** A collection detail request for a plain node is answered 404
    before any permission is looked at. *)
Lemma get_node_type_check_then_permissions_witness :
  let w := world store [("collection_id", "nodeA")] in
  CollectionMixin.get_node (H := osf) (request owner "GET" plain []) true w =
    (inl NotFound, logged w [EvGetObject "collection" "nodeA"]).
Proof.
  intros w.
  apply (proj1 (@get_node_type_check_then_permissions osf
                  (request owner "GET" plain []) true w) "nodeA" nodeA);
    vm_compute; reflexivity.
Defined.

(** The anonymous listing of the deployment. *)
Lemma list_default_query_restricts_witness :
  let w := world store [] in
  ∃ qs,
    CollectionList.get_queryset (H := osf) (request AnonymousUser "GET" plain []) w =
      (inr qs, w) ∧
    ∀ c, c ∈ qs → is_deleted c = false ∧ is_public c = true.
Proof.
  intros w.
  destruct (@list_default_query_restricts osf (request AnonymousUser "GET" plain []) w)
    as (qs & Hrun & Hin & _); [vm_compute; reflexivity|].
  exists qs. split; [exact Hrun|].
  intros c Hc. destruct (Hin c Hc) as (Hd & Hv & _). split; [exact Hd|exact Hv].
Defined.

(** The visitor is not the admin of the owner's collections. *)
Lemma bulk_destroy_needs_admin_on_all_witness :
  let w := world store [] in
  let request := request visitor "DELETE" bulk ["coll1"; "coll2"] in
  CollectionList.allow_bulk_destroy_resources (H := osf) visitor [coll1; coll2] = false ∧
  CollectionList.bulk_destroy (H := osf) request [coll1; coll2] w = (inl PermissionDenied, w).
Proof.
  intros w request.
  apply (proj2 (@bulk_destroy_needs_admin_on_all osf request [coll1; coll2] w) coll1).
  - left.
  - vm_compute; reflexivity.
Defined.

(** [coll1] links a node and a registration. *)
Lemma scoped_lists_partition_by_type_witness :
  let w := world store [("collection_id", "coll1")] in
  let request := request owner "GET" plain [] in
  ∃ linked_nodes linked_registrations,
    LinkedNodesList.get_queryset (H := osf) request w = (inr linked_nodes, w) ∧
    LinkedRegistrationsList.get_queryset (H := osf) request w =
      (inr linked_registrations, w) ∧
    (∀ n, n ∈ linked_nodes ↔ n ∈ [nodeA; regR] ∧ type n ≠ "osf.registration") ∧
    (∀ n, n ∈ linked_registrations ↔ n ∈ [nodeA; regR] ∧ type n = "osf.registration") ∧
    (∀ n, ¬ (n ∈ linked_nodes ∧ n ∈ linked_registrations)).
Proof.
  intros w request.
  apply (@scoped_lists_partition_by_type osf request w [nodeA; regR] w).
  vm_compute; reflexivity.
Defined.

(** The node links of [coll1]: its deleted target and its
    collection target are left out. *)
Lemma node_links_list_live_non_collection_witness :
  let w := world store [("collection_id", "coll1")] in
  let request := request owner "GET" plain [] in
  ∃ qs w',
    NodeLinksList.get_queryset (H := osf) request w = (inr qs, w') ∧
    ∀ r, r ∈ qs →
      ∃ target, nodes store !! child r = Some target ∧
                is_deleted target = false ∧ type target ≠ "osf.collection".
Proof.
  intros w request.
  edestruct (@node_links_list_live_non_collection osf request w) as (qs & Hrun & Hqs);
    [vm_compute; reflexivity|].
  eexists qs, _. split; [exact Hrun|].
  intros r Hr. apply Hqs in Hr as (_ & _ & Htarget). exact Htarget.
Defined.

(** Link 5 belongs to [coll2]; deleting it through [coll1] fails. *)
Lemma node_link_destroy_wrong_parent_witness :
  let w := world store [("collection_id", "coll1"); ("node_link_id", "5")] in
  let request := request owner "DELETE" plain [] in
  ∃ message w',
    NodeLinksDetail.perform_destroy (H := osf) request (link 5 "coll2" "nodeB") w =
      (inl (ValidationError message), w') ∧
    db w' = store.
Proof.
  intros w request.
  edestruct (@node_link_destroy_wrong_parent osf request (link 5 "coll2" "nodeB") w)
    as (message & Hrun & Hdb & _).
  - vm_compute; reflexivity.
  - vm_compute; reflexivity.
  - vm_compute. discriminate.
  - eexists message, _. split; [exact Hrun|exact Hdb].
Defined.

End Witnesses.

Section ReconcilerWitnesses.
Import Fixture.

(** The scenario of the specification: current links [{A}], replace
    request [{A, B, X}] where [X] does not exist. *)
Lemma additions_all_or_nothing_witness :
  let w := world store_A [] in
  reconcile (H := osf) coll1 plain_node ["nodeA"; "nodeB"; "nodeX"] replace
    (auth_of owner) 7 w = (inl NotFound, w) ∧
  current_ids (db w) coll1 plain_node = ["nodeA"].
Proof.
  intros w. split; [|vm_compute; reflexivity].
  apply (@additions_all_or_nothing osf coll1 plain_node _ replace (auth_of owner) 7 w
           ["nodeA"; "nodeB"] "nodeX" [] NotFound).
  - discriminate.
  - vm_compute; reflexivity.
  - reflexivity.
  - intros y Hy. apply elem_of_cons in Hy as [->|Hy].
    { left. by_eval. }
    apply list_elem_of_singleton in Hy as ->. right. vm_compute; reflexivity.
  - by_eval.
  - vm_compute; reflexivity.
Defined.

(** Clearing the node-scoped links of [coll1]. *)
Lemma replace_empty_clears_witness :
  let w := world store [] in
  ∃ w',
    reconcile (H := osf) coll1 plain_node [] replace (auth_of owner) 7 w =
      (inr (200, []), w') ∧
    current_ids (db w') coll1 plain_node = [] ∧
    link_count (db w') "coll1" "nodeA" = 0 ∧
    date_modified <$> nodes (db w') !! "coll1" = Some 7.
Proof.
  intros w.
  destruct (@replace_empty_clears osf coll1 plain_node (auth_of owner) 7 w coll1)
    as [(w' & Hrun & Hcur & Hzero & Hdate) _].
  - vm_compute; reflexivity.
  - vm_compute; reflexivity.
  - exists w'. split; [exact Hrun|]. split; [exact Hcur|]. split; [|exact Hdate].
    apply Hzero. by_eval.
Defined.

(** [{A, A}] against [{A}] changes nothing; [{B, A, B}] links [B]
    once. *)
Lemma replace_same_set_and_duplicates_witness :
  let w := world store_A [] in
  (∃ w',
     reconcile (H := osf) coll1 plain_node ["nodeA"; "nodeA"] replace
       (auth_of owner) 7 w = (inr (200, ["nodeA"]), w') ∧
     node_relations (db w') = [link 1 "coll1" "nodeA"]) ∧
  (∃ ids w',
     reconcile (H := osf) coll1 plain_node ["nodeB"; "nodeA"; "nodeB"] replace
       (auth_of owner) 7 w = (inr (200, ids), w') ∧
     link_count (db w') "coll1" "nodeB" = 1 ∧ "nodeB" ∈ ids).
Proof.
  intros w. split.
  - apply (proj1 (@replace_same_set_and_duplicates osf coll1 plain_node
                    ["nodeA"; "nodeA"] (auth_of owner) 7 w
                    ltac:(vm_compute; reflexivity))).
    change (current_ids (db w) coll1 plain_node) with ["nodeA"].
    intros x. rewrite !elem_of_cons, elem_of_nil. tauto.
  - destruct (proj2 (@replace_same_set_and_duplicates osf coll1 plain_node
                      ["nodeB"; "nodeA"; "nodeB"] (auth_of owner) 7 w
                      ltac:(vm_compute; reflexivity)) replace)
      as (ids & w' & Hrun & Hone).
    + discriminate.
    + intros x. unfold link_count.
      etrans; [apply length_filter|]. cbn. lia.
    + change (current_ids (db w) coll1 plain_node) with ["nodeA"].
      intros x Hx.
      apply elem_of_cons in Hx as [->|Hx]; [right; vm_compute; reflexivity|].
      apply elem_of_cons in Hx as [->|Hx]; [left; left|].
      apply list_elem_of_singleton in Hx as ->. right. vm_compute; reflexivity.
    + exists ids, w'. split; [exact Hrun|]. apply Hone. left.
Defined.

(** [nodeB] is not linked from [coll1]: removing it is a no-op. *)
Lemma remove_absent_is_noop_witness :
  let w := world store [] in
  ∃ ids w',
    reconcile (H := osf) coll1 plain_node ["nodeB"] remove (auth_of owner) 7 w =
      (inr (204, ids), w') ∧
    node_relations (db w') = node_relations store ∧
    ids = ["nodeA"].
Proof.
  intros w.
  destruct (@remove_absent_is_noop osf coll1 plain_node ["nodeB"] (auth_of owner) 7 w)
    as (ids & w' & Hrun & _ & Hnoop & _); [vm_compute; reflexivity|].
  exists ids, w'. split; [exact Hrun|].
  apply Hnoop. intros x Hx. apply list_elem_of_singleton in Hx as ->. by_eval.
Defined.

End ReconcilerWitnesses.

(** * Further properties of the views *)

(** ** [CollectionMixin.get_node] *)
Section GetNodeFurther.
Context `{Collaborators}.

(** X1: [get_node] returns a node exactly when the URL has a
    collection id, the loader finds an entity for it, the entity is a
    collection and, if permissions are to be checked, the permission
    classes accept it; the node returned is the loaded one and the
    trace has the loader call followed by the permission check, if
    any. *)
Theorem get_node_returns_iff request chk w n w' :
  CollectionMixin.get_node request chk w = (inr n, w') ↔
  ∃ pk,
    kwargs w !! "collection_id" = Some pk ∧
    load_collection (db w) pk = inr n ∧
    is_collection n = true ∧
    let w1 := logged w [EvGetObject "collection" pk] in
    if chk then
      let w2 := logged w1 [EvCheckObjectPermissions (ONode n)] in
      object_permissions request w2 (ONode n) = None ∧ w' = w2
    else w' = w1.
Proof.
  rewrite get_node_run. cbv zeta. split.
  - destruct (kwargs w !! "collection_id") as [pk|]; [|done].
    destruct (load_collection (db w) pk) as [e|n0] eqn:Hl; [done|].
    destruct (is_collection n0) eqn:Hc; [|done].
    destruct chk.
    + destruct (object_permissions _ _ _) eqn:Hp; [done|].
      intros [= <- <-]. by exists pk.
    + intros [= <- <-]. by exists pk.
  - intros (pk & -> & -> & -> & Hw). destruct chk.
    + destruct Hw as [-> ->]. done.
    + by rewrite Hw.
Qed.

(** X2: [get_node] only reads: whatever it returns or raises, the
    database and the view's kwargs are as before, and the trace is
    only extended. *)
Theorem get_node_read_only request chk w :
  let w' := (CollectionMixin.get_node request chk w).2 in
  db w' = db w ∧ kwargs w' = kwargs w ∧ log w `prefix_of` log w'.
Proof.
  cbv zeta. split; [apply get_node_db|]. split; [apply get_node_kwargs|].
  rewrite get_node_run. cbv zeta.
  repeat case_match; cbn; try done;
    repeat first [apply prefix_app_r | reflexivity].
Qed.

(** X3: every error of [get_node] has one of four causes: the URL
    kwarg is missing ([KeyError]); the loader raised, and its error is
    passed on unchanged; the entity is not a collection ([NotFound]);
    or the permission classes refused the collection, with their
    error. *)
Theorem get_node_error_causes request chk w e w' :
  CollectionMixin.get_node request chk w = (inl e, w') →
  (kwargs w !! "collection_id" = None ∧ e = KeyError "collection_id") ∨
  ∃ pk,
    kwargs w !! "collection_id" = Some pk ∧
    (load_collection (db w) pk = inl e ∨
     ∃ n,
       load_collection (db w) pk = inr n ∧
       ((is_collection n = false ∧ e = NotFound) ∨
        (is_collection n = true ∧ chk = true ∧
         object_permissions request
           (logged (logged w [EvGetObject "collection" pk])
              [EvCheckObjectPermissions (ONode n)]) (ONode n) = Some e))).
Proof.
  rewrite get_node_run. cbv zeta.
  destruct (kwargs w !! "collection_id") as [pk|]; [|intros [= <- _]; by left].
  intros Hrun. right. exists pk. split; [done|].
  destruct (load_collection (db w) pk) as [e0|n]; [injection Hrun as <- _; by left|].
  right. exists n. split; [done|].
  destruct (is_collection n); [|injection Hrun as <- _; by left].
  right. destruct chk; [|done].
  destruct (object_permissions _ _ _) as [e0|]; [|done].
  by injection Hrun as <- _.
Qed.

End GetNodeFurther.

(** ** [CollectionList] *)
Section CollectionListFurther.
Context `{Collaborators}.

Lemma require_can_edit_run auth collections w :
  CollectionList.require_can_edit auth collections w =
  if decide (Forall (λ c, can_edit c auth = true) collections)
  then (inr tt, w) else (inl PermissionDenied, w).
Proof.
  induction collections as [|c rest IH]; cbn.
  - by rewrite decide_True by constructor.
  - destruct (can_edit c auth) eqn:Hc; cbn.
    + rewrite IH. destruct (decide (Forall _ rest)) as [Hr|Hr].
      * by rewrite decide_True by by constructor.
      * rewrite decide_False; [done|]. by intros [_ ?]%Forall_cons.
    + rewrite decide_False; [done|]. intros [? _]%Forall_cons. congruence.
Qed.

Lemma matches_id_in ids c :
  matches (Q "_id" "in" (VList ids)) c = true ↔ _id c ∈ ids.
Proof.
  cbn [matches]. rewrite attr_id.
  change (compare "in" (VStr (_id c)) (VList ids)) with (bool_decide (_id c ∈ ids)).
  apply bool_decide_eq_true.
Qed.

(** X4: a bulk request to the collections list does not use the
    default query: it finds the collection rows whose id is named in
    the request body, deleted or not, of any creator.  If the user
    can edit all of them they are returned; if the user cannot edit
    one of them the request is refused with [PermissionDenied]. *)
Theorem bulk_queryset_all_or_refused request w :
  is_bulk_request request = true →
  let found :=
    Collection_find (db w) (Q "_id" "in" (VList (res_id <$> data request))) in
  (∀ c, c ∈ found ↔
     is_collection c = true ∧ (∃ pk, nodes (db w) !! pk = Some c) ∧
     _id c ∈ res_id <$> data request) ∧
  ((∀ c, c ∈ found → can_edit c (get_user_auth request) = true) →
   CollectionList.get_queryset request w = (inr found, w)) ∧
  (∀ c, c ∈ found → can_edit c (get_user_auth request) = false →
   CollectionList.get_queryset request w = (inl PermissionDenied, w)).
Proof.
  intros Hbulk found. split; [|split].
  - intros c. unfold found. rewrite elem_of_Collection_find, matches_id_in. tauto.
  - intros Hall. unfold CollectionList.get_queryset. run. rewrite Hbulk.
    fold found. rewrite require_can_edit_run, decide_True; [done|].
    by apply Forall_forall.
  - intros c Hc Hno. unfold CollectionList.get_queryset. run. rewrite Hbulk.
    fold found. rewrite require_can_edit_run, decide_False; [done|].
    rewrite Forall_forall. intros Hall. specialize (Hall c Hc). congruence.
Qed.

(** X5: [get_queryset] of the collections list only reads: bulk or
    not, accepted or refused, the world is left as it was. *)
Theorem list_queryset_read_only request w :
  (CollectionList.get_queryset request w).2 = w.
Proof.
  unfold CollectionList.get_queryset. run.
  destruct (is_bulk_request request); [|done].
  rewrite require_can_edit_run. by case_decide.
Qed.

(** X6: the admin check of a bulk delete composes: a concatenated
    list is allowed exactly when both parts are, the empty list is
    allowed, and the order of the resources does not matter. *)
Theorem allow_bulk_destroy_resources_compose u l1 l2 :
  CollectionList.allow_bulk_destroy_resources u (l1 ++ l2) =
    CollectionList.allow_bulk_destroy_resources u l1 &&
    CollectionList.allow_bulk_destroy_resources u l2 ∧
  CollectionList.allow_bulk_destroy_resources u [] = true ∧
  (l1 ≡ₚ l2 →
   CollectionList.allow_bulk_destroy_resources u l1 =
   CollectionList.allow_bulk_destroy_resources u l2).
Proof.
  split; [|split; [done|]].
  - induction l1 as [|n l1 IH]; [done|]. cbn.
    by destruct (has_permission n u ADMIN).
  - intros Hperm. apply eq_true_iff_eq.
    rewrite !allow_bulk_destroy_resources_Forall. by rewrite Hperm.
Qed.

(** X7: [perform_destroy] of the collections list turns the model's
    [NodeStateError] into a [ValidationError] with the same message;
    it never ends in a [NodeStateError]; and whenever it fails the
    world is as before: nothing is removed or saved. *)
Theorem list_perform_destroy_state_error request instance w :
  (∀ message,
     remove_node instance (get_user_auth request) (db w) =
       inl (NodeStateError message) →
     CollectionList.perform_destroy request instance w =
       (inl (ValidationError message), w)) ∧
  (∀ message,
     (CollectionList.perform_destroy request instance w).1 ≠
       inl (NodeStateError message)) ∧
  (∀ e w', CollectionList.perform_destroy request instance w = (inl e, w') → w' = w).
Proof.
  unfold CollectionList.perform_destroy. run.
  destruct (remove_node instance (get_user_auth request) (db w))
    as [e0|[i s]] eqn:Hrm; cbn.
  - split; [|split].
    + by intros message [= ->].
    + intros message. by destruct e0.
    + intros e w'. destruct e0; cbn; by intros [= _ <-].
  - split; [done|]. split; [done|]. intros e w'. done.
Qed.

End CollectionListFurther.

(** ** [CollectionDetail] *)
Section CollectionDetailFurther.
Context `{Collaborators}.

(** X8: deleting through the detail endpoint is the list endpoint's
    [perform_destroy] applied to the collection looked up from the
    URL: the instance handed in by the framework plays no part, and a
    failed lookup is the error of the request. *)
Theorem detail_perform_destroy_is_list_destroy_of_lookup request instance w :
  CollectionDetail.perform_destroy request instance w =
  match CollectionMixin.get_node request true w with
  | (inl e, w1) => (inl e, w1)
  | (inr node, w1) => CollectionList.perform_destroy request node w1
  end.
Proof.
  unfold CollectionDetail.perform_destroy, CollectionDetail.get_object,
    CollectionList.perform_destroy.
  unfold mbind at 1, M_bind at 1, bind at 1.
  by destruct (CollectionMixin.get_node request true w) as [[e|node] w1].
Qed.

(** X9: a detail delete that fails, for whatever reason (unknown or
    deleted id, an id that is not a collection, permission refused,
    removal refused by the model), leaves the database unchanged. *)
Theorem detail_perform_destroy_failure_keeps_db request instance w e w' :
  CollectionDetail.perform_destroy request instance w = (inl e, w') →
  db w' = db w.
Proof.
  unfold CollectionDetail.perform_destroy, CollectionDetail.get_object.
  unfold mbind at 1, M_bind at 1, bind at 1.
  pose proof (get_node_db request true w) as Hdb.
  destruct (CollectionMixin.get_node request true w) as [[e0|node] w1]; cbn in Hdb.
  - by intros [= _ <-].
  - run.
    destruct (remove_node node (get_user_auth request) (db w1)) as [e0|[i s]]; cbn.
    + destruct e0; cbn; by intros [= _ <-].
    + done.
Qed.

End CollectionDetailFurther.

(** ** The scoped lists *)
Section ScopedViewsFurther.
Context `{Collaborators}.

(** X10: the two scoped lists split the linked targets without loss
    or repetition, and each keeps the order of the underlying query
    set: together they are a permutation of it and each is a sublist
    of it. *)
Theorem scoped_lists_split_in_order request w qs w' :
  base_linked_list request w = (inr qs, w') →
  ∃ linked_nodes linked_registrations,
    LinkedNodesList.get_queryset request w = (inr linked_nodes, w') ∧
    LinkedRegistrationsList.get_queryset request w = (inr linked_registrations, w') ∧
    linked_registrations ++ linked_nodes ≡ₚ qs ∧
    linked_nodes `sublist_of` qs ∧
    linked_registrations `sublist_of` qs.
Proof.
  intros Hbase.
  exists (qs_exclude "type" (VStr "osf.registration") qs),
         (qs_filter "type" (VStr "osf.registration") qs).
  split; [|split; [|split; [|split]]].
  - unfold LinkedNodesList.get_queryset. run. by rewrite Hbase.
  - unfold LinkedRegistrationsList.get_queryset. run. by rewrite Hbase.
  - unfold qs_filter, qs_exclude.
    assert (filter (λ n, negb (bool_decide (attr n "type" = Some (VStr "osf.registration")))) qs =
            filter (λ n, ¬ bool_decide (attr n "type" = Some (VStr "osf.registration"))) qs)
      as -> by (apply list_filter_iff; intros n; apply negb_True).
    apply filter_app_complement.
  - apply sublist_filter.
  - apply sublist_filter.
Qed.

End ScopedViewsFurther.

(** ** Node links *)
Section NodeLinksFurther.
Context `{Collaborators}.

Lemma node_links_get_queryset_run request w :
  NodeLinksList.get_queryset request w =
  match CollectionMixin.get_node request true w with
  | (inl e, w1) => (inl e, w1)
  | (inr node, w1) =>
      (inr (rel_exclude_child (db w1) "type" (VStr "osf.collection")
              (rel_filter_child (db w1) "is_deleted" (VBool false)
                 (node_relations_of (db w1) node))), w1)
  end.
Proof.
  unfold NodeLinksList.get_queryset. run.
  by destruct (CollectionMixin.get_node request true w) as [[e|node] w1].
Qed.

(** X11: the node-links list only reads the database and the kwargs,
    fails with the error of the collection lookup when that fails,
    and what it returns is a sublist of the stored links: store order
    is kept and no link is repeated or invented. *)
Theorem node_links_list_reads_sublist request w :
  let r := NodeLinksList.get_queryset request w in
  db r.2 = db w ∧ kwargs r.2 = kwargs w ∧
  (∀ qs, r.1 = inr qs → qs `sublist_of` node_relations (db w)) ∧
  (∀ e w1, CollectionMixin.get_node request true w = (inl e, w1) → r = (inl e, w1)).
Proof.
  cbv zeta. rewrite node_links_get_queryset_run.
  pose proof (get_node_db request true w) as Hdb.
  pose proof (get_node_kwargs request true w) as Hkw.
  destruct (CollectionMixin.get_node request true w) as [[e|node] w1];
    cbn in Hdb, Hkw; cbn [fst snd].
  - split; [done|]. split; [done|]. split; [done|]. by intros e' w1' [= <- <-].
  - split; [done|]. split; [done|]. split; [|done].
    intros qs [= <-]. rewrite Hdb.
    unfold rel_exclude_child, rel_filter_child, node_relations_of.
    etrans; [apply sublist_filter|]. etrans; apply sublist_filter.
Qed.

(** What [get_object] of the node-link detail does, case by case. *)
Lemma get_object_run request w :
  NodeLinksDetail.get_object request w =
  match kwargs w !! "node_link_id" with
  | None => (inl (KeyError "node_link_id"), w)
  | Some pk =>
      let w1 := logged w [EvGetObject "node link" pk] in
      match load_node_link (db w) pk with
      | inl e => (inl e, w1)
      | inr r =>
          match kwargs w !! "collection_id" with
          | None => (inl (KeyError "collection_id"), w1)
          | Some c =>
              let w2 :=
                {| db := db w; kwargs := <["node_id" := c]> (kwargs w);
                   log := (log w ++ [EvGetObject "node link" pk]) ++
                          [EvCheckObjectPermissions (ONodeLink r)] |} in
              match object_permissions request w2 (ONodeLink r) with
              | Some e => (inl e, w2)
              | None => (inr r, w2)
              end
          end
      end
  end.
Proof.
  unfold NodeLinksDetail.get_object, logged. run.
  destruct (kwargs w !! "node_link_id") as [pk|]; cbn; [|done].
  destruct (load_node_link (db w) pk) as [e|r]; cbn; [done|].
  destruct (kwargs w !! "collection_id") as [c|]; cbn; [|done].
  by destruct (object_permissions _ _ _).
Qed.

(** X12: when [get_object] of the node-link detail returns a link,
    it is the link the loader found for the [node_link_id] of the
    URL, the view's kwargs have gained [node_id], equal to
    [collection_id], every other kwarg is as before, and the
    permission classes accepted the link in a world that already had
    that [node_id]. *)
Theorem get_object_sets_node_id request w r w' :
  NodeLinksDetail.get_object request w = (inr r, w') →
  ∃ pk c,
    kwargs w !! "node_link_id" = Some pk ∧
    load_node_link (db w) pk = inr r ∧
    kwargs w !! "collection_id" = Some c ∧
    kwargs w' !! "node_id" = Some c ∧
    (∀ k, k ≠ "node_id" → kwargs w' !! k = kwargs w !! k) ∧
    db w' = db w ∧
    object_permissions request w' (ONodeLink r) = None.
Proof.
  rewrite get_object_run. cbv zeta.
  destruct (kwargs w !! "node_link_id") as [pk|]; [|done].
  destruct (load_node_link (db w) pk) as [e|r0] eqn:Hl; [done|].
  destruct (kwargs w !! "collection_id") as [c|]; [|done].
  destruct (object_permissions _ _ _) eqn:Hp; [done|].
  intros [= <- <-]. exists pk, c. cbn [db kwargs].
  split; [done|]. split; [done|]. split; [done|].
  split; [apply lookup_insert_eq|]. split; [|done].
  intros k Hk. by apply lookup_insert_ne.
Qed.

(** X13: the node-link detail delete looks the collection up first
    and the link second: the error of the first lookup that fails is
    the error of the request, and the database is unchanged. *)
Theorem detail_link_destroy_lookup_order request instance w :
  (∀ e w1,
     CollectionMixin.get_node request true w = (inl e, w1) →
     NodeLinksDetail.perform_destroy request instance w = (inl e, w1) ∧
     db w1 = db w) ∧
  (∀ node w1 e w2,
     CollectionMixin.get_node request true w = (inr node, w1) →
     NodeLinksDetail.get_object request w1 = (inl e, w2) →
     NodeLinksDetail.perform_destroy request instance w = (inl e, w2) ∧
     db w2 = db w).
Proof.
  pose proof (get_node_db request true w) as Hdb.
  split.
  - intros e w1 Hnode. rewrite Hnode in Hdb. split; [|done].
    unfold NodeLinksDetail.perform_destroy.
    unfold mbind at 1, M_bind at 1, bind at 1. by rewrite Hnode.
  - intros node w1 e w2 Hnode Hobj. rewrite Hnode in Hdb. cbn in Hdb.
    pose proof (get_object_db request w1) as Hdb2. rewrite Hobj in Hdb2.
    split; [|cbn in Hdb2; congruence].
    unfold NodeLinksDetail.perform_destroy.
    unfold mbind at 1, M_bind at 1, bind at 1. rewrite Hnode.
    unfold mbind at 1, M_bind at 1, bind at 1. by rewrite Hobj.
Qed.

(** X14: once the lookups have succeeded, neither node-link delete
    lets a [ValueError] out: whatever the model method raises, the
    views answer with another error or succeed. *)
Theorem node_link_destroy_no_ValueError request instance w message :
  (∀ node w1,
     CollectionMixin.get_node request true w = (inr node, w1) →
     (NodeLinksList.perform_destroy request instance w).1 ≠ inl (ValueError message)) ∧
  (∀ node w1 pointer w2,
     CollectionMixin.get_node request true w = (inr node, w1) →
     NodeLinksDetail.get_object request w1 = (inr pointer, w2) →
     (NodeLinksDetail.perform_destroy request instance w).1 ≠ inl (ValueError message)).
Proof.
  assert (∀ c : M unit, ∀ node w0,
            (bind (try_except c pointer_not_in_node) (λ _, save_node node) w0).1 ≠
              inl (ValueError message)) as Htry.
  { intros c node w0. unfold bind, try_except.
    destruct (c w0) as [[e|[]] w3]; [|done].
    destruct e; done. }
  split.
  - intros node w1 Hnode. unfold NodeLinksList.perform_destroy.
    unfold mbind at 1, M_bind at 1, bind at 1. rewrite Hnode. apply Htry.
  - intros node w1 pointer w2 Hnode Hobj. unfold NodeLinksDetail.perform_destroy.
    unfold mbind at 1, M_bind at 1, bind at 1. rewrite Hnode.
    unfold mbind at 1, M_bind at 1, bind at 1. rewrite Hobj. apply Htry.
Qed.

End NodeLinksFurther.

(** ** The payload helper of the preprint license tests *)
Section PreprintPayloadProps.
Import PreprintPayload.

(** X15: the license record of a payload carries exactly the truthy
    arguments: the year is readable back from the payload when a
    non-empty year was given and absent otherwise, likewise for the
    copyright holders, and with neither the attributes are the empty
    dict. *)
Theorem payload_license_record_round_trip node_id license_id license_year holders :
  let p := payload node_id license_id license_year holders in
  path ["data"; "attributes"; "license_record"; "year"] p =
    (if truthy_str license_year then Some (of_str license_year) else None) ∧
  path ["data"; "attributes"; "license_record"; "copyright_holders"] p =
    (if truthy_list holders then Some (of_list holders) else None) ∧
  (truthy_str license_year = false → truthy_list holders = false →
   path ["data"; "attributes"] p = Some (JDict [])).
Proof.
  cbv zeta. unfold payload.
  destruct (truthy_str license_id), (truthy_str license_year), (truthy_list holders);
    repeat split; try reflexivity; intros; discriminate.
Qed.

(** X16: a payload always names the node, and it has a license
    relationship, of type [licenses] and with the given id, exactly
    when a non-empty license id was given; otherwise it has no
    [relationships] key at all. *)
Theorem payload_license_relationship node_id license_id license_year holders :
  let p := payload node_id license_id license_year holders in
  path ["data"; "id"] p = Some (JStr node_id) ∧
  path ["data"; "relationships"; "license"; "data"; "id"] p =
    (if truthy_str license_id then Some (of_str license_id) else None) ∧
  path ["data"; "relationships"; "license"; "data"; "type"] p =
    (if truthy_str license_id then Some (JStr "licenses") else None) ∧
  (truthy_str license_id = false → path ["data"; "relationships"] p = None).
Proof.
  cbv zeta. unfold payload.
  destruct (truthy_str license_id), (truthy_str license_year), (truthy_list holders);
    repeat split; try reflexivity; intros; discriminate.
Qed.

(** X17: an empty string or an empty list is treated as an argument
    that was not given. *)
Theorem payload_empty_is_absent node_id license_id license_year holders :
  payload node_id (Some "") license_year holders =
    payload node_id None license_year holders ∧
  payload node_id license_id (Some "") holders =
    payload node_id license_id None holders ∧
  payload node_id license_id license_year (Some []) =
    payload node_id license_id license_year None.
Proof.
  unfold payload.
  destruct (truthy_str license_id), (truthy_str license_year), (truthy_list holders);
    repeat split; reflexivity.
Qed.

End PreprintPayloadProps.

(** ** The further properties on the concrete deployments *)
Section FurtherWitnesses.
Import Fixture.

(** [coll3] is soft-deleted: the loader's [Gone] is the error. *)
Lemma get_node_error_causes_witness :
  let w := world store [("collection_id", "coll3")] in
  ∃ pk, kwargs w !! "collection_id" = Some pk ∧
        load_collection (Collaborators := osf) (db w) pk = inl Gone.
Proof.
  intros w.
  destruct (@get_node_error_causes osf (request owner "GET" plain []) true w Gone
              (logged w [EvGetObject "collection" "coll3"]))
    as [[Hk _]|(pk & Hk & [Hl|(n & Hl & _)])].
  - vm_compute; reflexivity.
  - vm_compute in Hk. discriminate.
  - exists pk. split; [exact Hk|exact Hl].
  - vm_compute in Hk. injection Hk as <-. vm_compute in Hl. discriminate.
Defined.

(** The owner asks for three ids in bulk: the live and the deleted
    collection are returned, the plain node is not. *)
Lemma bulk_queryset_all_or_refused_witness :
  let w := world store [] in
  let request := request owner "PUT" bulk ["coll1"; "coll3"; "nodeA"] in
  CollectionList.get_queryset (H := osf) request w = (inr [gone3; coll1], w).
Proof.
  intros w request.
  pose proof (@bulk_queryset_all_or_refused osf request w) as Hbulk.
  cbv zeta in Hbulk.
  assert (Collection_find (db w) (Q "_id" "in" (VList (res_id <$> data request))) =
          [gone3; coll1]) as Hfound by (vm_compute; reflexivity).
  rewrite Hfound in Hbulk.
  destruct Hbulk as (_ & Hok & _); [vm_compute; reflexivity|].
  apply Hok. intros c Hc.
  apply elem_of_cons in Hc as [->|Hc]; [vm_compute; reflexivity|].
  apply list_elem_of_singleton in Hc as ->. vm_compute; reflexivity.
Defined.

(** Reordering the resources does not change the verdict. *)
Lemma allow_bulk_destroy_resources_compose_witness :
  CollectionList.allow_bulk_destroy_resources (H := osf) owner [coll1; nodeB] =
  CollectionList.allow_bulk_destroy_resources (H := osf) owner [nodeB; coll1].
Proof.
  apply (proj2 (proj2 (@allow_bulk_destroy_resources_compose osf owner
                         [coll1; nodeB] [nodeB; coll1]))).
  apply Permutation_swap.
Defined.

(** On the frozen deployment the refusal of the model is answered as
    a validation error and nothing changes. *)
Lemma list_perform_destroy_state_error_witness :
  let w := world store [] in
  CollectionList.perform_destroy (H := Frozen.osf) (request owner "DELETE" bulk [])
    coll1 w = (inl (ValidationError Frozen.refusal), w).
Proof.
  intros w.
  apply (proj1 (@list_perform_destroy_state_error Frozen.osf
                  (request owner "DELETE" bulk []) coll1 w)).
  vm_compute; reflexivity.
Defined.

(** A visitor's delete of the owner's collection is refused and the
    store is as before. *)
Lemma detail_perform_destroy_failure_keeps_db_witness :
  let w := world store [("collection_id", "coll1")] in
  ∃ w',
    CollectionDetail.perform_destroy (H := osf) (request visitor "DELETE" plain [])
      coll1 w = (inl PermissionDenied, w') ∧
    db w' = store.
Proof.
  intros w. eexists. split; [vm_compute; reflexivity|].
  eapply (@detail_perform_destroy_failure_keeps_db osf
            (request visitor "DELETE" plain []) coll1 w PermissionDenied).
  vm_compute; reflexivity.
Defined.

(** [coll1] links a node and a registration. *)
Lemma scoped_lists_split_in_order_witness :
  let w := world store [("collection_id", "coll1")] in
  let request := request owner "GET" plain [] in
  ∃ linked_nodes linked_registrations,
    LinkedNodesList.get_queryset (H := osf) request w = (inr linked_nodes, w) ∧
    LinkedRegistrationsList.get_queryset (H := osf) request w =
      (inr linked_registrations, w) ∧
    linked_registrations ++ linked_nodes ≡ₚ [nodeA; regR] ∧
    linked_nodes `sublist_of` [nodeA; regR] ∧
    linked_registrations `sublist_of` [nodeA; regR].
Proof.
  intros w request.
  apply (@scoped_lists_split_in_order osf request w [nodeA; regR] w).
  vm_compute; reflexivity.
Defined.

(** A plain node in the URL: the node-links list answers 404. *)
Lemma node_links_list_reads_sublist_witness :
  let w := world store [("collection_id", "nodeA")] in
  NodeLinksList.get_queryset (H := osf) (request owner "GET" plain []) w =
    (inl NotFound, logged w [EvGetObject "collection" "nodeA"]).
Proof.
  intros w.
  apply (proj2 (proj2 (proj2 (@node_links_list_reads_sublist osf
                                (request owner "GET" plain []) w)))).
  vm_compute; reflexivity.
Defined.

(** Link 5 is found and the kwargs gain [node_id = coll2]. *)
Lemma get_object_sets_node_id_witness :
  let w := world store [("collection_id", "coll2"); ("node_link_id", "5")] in
  ∃ w',
    NodeLinksDetail.get_object (H := osf) (request owner "GET" plain []) w =
      (inr (link 5 "coll2" "nodeB"), w') ∧
    kwargs w' !! "node_id" = Some "coll2".
Proof.
  intros w. eexists. split; [vm_compute; reflexivity|].
  edestruct (@get_object_sets_node_id osf (request owner "GET" plain []) w)
    as (pk & c & _ & _ & Hc & Hn & _); [vm_compute; reflexivity|].
  rewrite Hn. vm_compute in Hc. exact (eq_sym Hc).
Defined.

(** A plain node in the URL is reported before the missing link. *)
Lemma detail_link_destroy_lookup_order_witness :
  let w := world store [("collection_id", "nodeA"); ("node_link_id", "99")] in
  NodeLinksDetail.perform_destroy (H := osf) (request owner "DELETE" plain [])
    (link 99 "coll1" "nodeA") w =
    (inl NotFound, logged w [EvGetObject "collection" "nodeA"]).
Proof.
  intros w.
  apply (proj1 (@detail_link_destroy_lookup_order osf
                  (request owner "DELETE" plain []) (link 99 "coll1" "nodeA") w)).
  vm_compute; reflexivity.
Defined.

(** Deleting a foreign link through [coll1] does not end in a
    [ValueError]. *)
Lemma node_link_destroy_no_ValueError_witness :
  let w := world store [("collection_id", "coll1")] in
  (NodeLinksList.perform_destroy (H := osf) (request owner "DELETE" plain [])
     (link 5 "coll2" "nodeB") w).1 ≠
  inl (ValueError "Node link does not belong to the requested node.").
Proof.
  intros w.
  eapply (proj1 (@node_link_destroy_no_ValueError osf
                   (request owner "DELETE" plain []) (link 5 "coll2" "nodeB") w _)).
  vm_compute; reflexivity.
Defined.

(** The payload of [test_admin_can_update_license_record]. *)
Lemma payload_license_record_round_trip_witness :
  PreprintPayload.path ["data"; "attributes"]
    (PreprintPayload.payload "prep1" (Some "lic01") None (Some [])) =
  Some (PreprintPayload.JDict []).
Proof.
  apply (proj2 (proj2 (payload_license_record_round_trip
                         "prep1" (Some "lic01") None (Some [])))); reflexivity.
Defined.

Lemma payload_license_relationship_witness :
  PreprintPayload.path ["data"; "relationships"]
    (PreprintPayload.payload "prep1" (Some "") (Some "2015") None) = None.
Proof.
  apply (proj2 (proj2 (proj2 (payload_license_relationship
                                "prep1" (Some "") (Some "2015") None)))); reflexivity.
Defined.

End FurtherWitnesses.
